(** * mqtt-zabbix: the MQTT to Zabbix bridge of [mqtt-zabbix.py]

    A shallow embedding of the script's callbacks, its routing table
    ([KeyMap.mapdict]) and its per-message pipeline ([on_message],
    [process_message]), followed by the properties of the specification
    that can be settled against them.

    Conventions.
    - A Python [str] is a [string] holding the UTF-8 encoding of the text
      (what a Rocq string literal holds as well); a Python [bytes] is a
      [list byte].  The two are different Python types, kept apart by the
      constructors of [value].
    - Every call the script makes to the outside (logging, the MQTT client,
      [time.sleep], [print], [send_to_zabbix], the constructor of the
      client) is recorded, in program order, in a trace of [effect]s.
    - A computation is a pair of the trace it produced and of its result,
      which is a returned value or a raised exception. *)

From Stdlib Require Import ZArith Lia Bool.
From Stdlib Require Import Strings.Byte Strings.Ascii.
From stdpp Require Import base list strings gmap pretty.

Local Open Scope string_scope.
Local Open Scope Z_scope.
Local Open Scope list_scope.

(** ** Python values and exceptions *)

#[export] Instance byte_eq_dec : EqDecision byte :=
  fun x y =>
    match Byte.eqb x y as c return Byte.eqb x y = c -> Decision (x = y) with
    | true => fun E => left (Byte.byte_dec_bl x y E)
    | false => fun E =>
        right (fun H : x = y =>
                 Bool.diff_true_false (eq_trans (eq_sym (Byte.byte_dec_lb H)) E))
    end eq_refl.

(** The values that reach [msg.payload], the arguments of the log calls and
    of the signal handler: [bytes], [str], [int], and an object of any other
    type (the stack frame a signal handler receives), of which only the
    text [str()] gives is kept. *)
Inductive value :=
| VBytes (b : list byte)
| VStr (s : string)
| VInt (n : Z)
| VObject (text : string).

(** The exceptions the script can meet.  [SystemExit] is what [sys.exit]
    raises; [LibraryError] stands for whatever an external library call
    raises (a socket error in [send_to_zabbix] or in [mqttc.connect]). *)
Inductive exn :=
| TypeError
| ValueError
| IndexError
| AttributeError
| UnicodeDecodeError
| KeyboardInterrupt
| SystemExit (code : Z)
| LibraryError (name : string).

(** [isinstance(e, Exception)]: [SystemExit] and [KeyboardInterrupt] derive
    from [BaseException] only. *)
Definition is_Exception (e : exn) : bool :=
  match e with
  | SystemExit _ | KeyboardInterrupt => false
  | _ => true
  end.

Inductive result (A : Type) :=
| Ok (a : A)
| Raise (e : exn).
Arguments Ok {A} a.
Arguments Raise {A} e.

(** ** Effects *)

Inductive level := DEBUG_LEVEL | INFO_LEVEL | WARNING_LEVEL.

(** zbxsend's [Metric(host, key, value, clock)]. *)
Record Metric := mkMetric {
  m_host : string;
  m_key : string;
  m_value : string;
  m_clock : string
}.

Inductive effect :=
| NewClient (client_id : string)
    (* mqtt.Client(client_id=...) *)
| Log (lvl : level) (fmt : string) (args : list value)
    (* logging.debug / info / warning (fmt, *args) *)
| Print (line : string)
    (* print(...) *)
| PrintExn (e : exn)
    (* print(e) for a caught exception e *)
| Sleep (seconds : Z)
    (* time.sleep(seconds) *)
| SetSignal (signum : Z)
    (* signal.signal(signum, cleanup) *)
| WillSet (topic : string) (payload : string) (qos : Z) (retain : bool)
    (* mqttc.will_set(topic, payload, qos=, retain=) *)
| Connect (host : string) (port : Z) (keepalive : Z)
    (* mqttc.connect(host, port, keepalive) *)
| SetCallback (name : string)
    (* mqttc.on_xxx = on_xxx *)
| Publish (topic : string) (payload : string) (retain : bool)
    (* mqttc.publish(topic, payload, retain=) *)
| Subscribe (topic : string) (qos : Z)
    (* mqttc.subscribe(topic, qos) *)
| Disconnect
    (* mqttc.disconnect() *)
| Send (metrics : list Metric) (server : string) (port : Z)
    (* send_to_zabbix(metrics, server, port) *)
| Reconnect.
    (* issued by the client library inside loop_forever, not by the script *)

Definition trace := list effect.

(** ** The computation monad: a writer of effects over exceptions *)

Definition M (A : Type) : Type := (trace * result A)%type.

Definition ret {A} (a : A) : M A := ([], Ok a).

Definition raise {A} (e : exn) : M A := ([], Raise e).

Definition bind {A B} (c : M A) (k : A -> M B) : M B :=
  match c with
  | (t, Ok a) => let '(t', r) := k a in (t ++ t', r)
  | (t, Raise e) => (t, Raise e)
  end.

Definition emit (e : effect) : M unit := ([e], Ok tt).

(** [try: c  except Exception as e: h e]: only subclasses of [Exception]
    are caught. *)
Definition try_except_Exception {A} (c : M A) (h : exn -> M A) : M A :=
  match c with
  | (t, Raise e) =>
      if is_Exception e then let '(t', r) := h e in (t ++ t', r)
      else (t, Raise e)
  | ok => ok
  end.

(** [try: c  except KeyboardInterrupt: h]. *)
Definition try_except_KeyboardInterrupt {A} (c : M A) (h : M A) : M A :=
  match c with
  | (t, Raise KeyboardInterrupt) => let '(t', r) := h in (t ++ t', r)
  | other => other
  end.

#[export] Instance M_ret : MRet M := @ret.
#[export] Instance M_bind : MBind M := fun A B k c => bind c k.

Definition effects {A} (c : M A) : trace := fst c.
Definition outcome {A} (c : M A) : result A := snd c.

Definition logging_debug (fmt : string) (args : list value) : M unit :=
  emit (Log DEBUG_LEVEL fmt args).
Definition logging_info (fmt : string) (args : list value) : M unit :=
  emit (Log INFO_LEVEL fmt args).
Definition logging_warning (fmt : string) (args : list value) : M unit :=
  emit (Log WARNING_LEVEL fmt args).

(** ** Python's string and bytes primitives used by the script *)

(** [s.split(sep)] for a non-empty separator: the pieces between the
    successive, non-overlapping occurrences of [sep], scanned from the
    left.  [skip] counts the characters of a separator still to step over,
    [cur] is the piece being read. *)
Fixpoint split_go (sep : string) (skip : nat) (cur s : string) : list string :=
  match s with
  | EmptyString => [cur]
  | String c rest =>
      match skip with
      | S n => split_go sep n cur rest
      | O =>
          if String.prefix sep s
          then cur :: split_go sep (Nat.pred (String.length sep)) "" rest
          else split_go sep O (cur +:+ String c "") rest
      end
  end.

Definition str_split (s sep : string) : list string := split_go sep O "" s.

(** [(a, b) = l]: unpacking a list into two names raises [ValueError]
    unless the list has exactly two elements. *)
Definition unpack2 (l : list string) : M (string * string) :=
  match l with
  | [a; b] => mret (a, b)
  | _ => raise ValueError
  end.

Definition byte_val (b : byte) : Z := Z.of_N (Byte.to_N b).

Definition between (lo hi : Z) (b : byte) : bool :=
  (lo <=? byte_val b) && (byte_val b <=? hi).

Definition continuation (b : byte) : bool := between 128 191 b.

(** The strict UTF-8 well-formedness test of [bytes.decode("utf-8")]: no
    overlong form, no surrogate, nothing above U+10FFFF, no truncated
    sequence. *)
Fixpoint valid_utf8 (bs : list byte) : bool :=
  match bs with
  | [] => true
  | b0 :: r0 =>
      if byte_val b0 <? 128 then valid_utf8 r0
      else if between 194 223 b0 then
        match r0 with
        | b1 :: r1 => continuation b1 && valid_utf8 r1
        | _ => false
        end
      else if between 224 239 b0 then
        match r0 with
        | b1 :: b2 :: r2 =>
            (if byte_val b0 =? 224 then between 160 191 b1
             else if byte_val b0 =? 237 then between 128 159 b1
             else continuation b1)
            && continuation b2 && valid_utf8 r2
        | _ => false
        end
      else if between 240 244 b0 then
        match r0 with
        | b1 :: b2 :: b3 :: r3 =>
            (if byte_val b0 =? 240 then between 144 191 b1
             else if byte_val b0 =? 244 then between 128 143 b1
             else continuation b1)
            && continuation b2 && continuation b3 && valid_utf8 r3
        | _ => false
        end
      else false
  end.

(** [b.decode("utf-8")] on a [bytes] object: the text whose encoding is
    [b], or [UnicodeDecodeError]. *)
Definition bytes_decode_utf8 (b : list byte) : M string :=
  if valid_utf8 b then mret (String.string_of_list_byte b)
  else raise UnicodeDecodeError.

(** [v.decode("utf-8")] on any value: [int] and [str] have no attribute
    [decode]. *)
Definition decode_utf8 (v : value) : M string :=
  match v with
  | VBytes b => bytes_decode_utf8 b
  | VStr _ | VInt _ | VObject _ => raise AttributeError
  end.

(** [a == b]: objects of different types among [bytes], [str] and [int]
    never compare equal; other objects compare by identity, which no two
    values of the script share. *)
Definition py_eq (a b : value) : bool :=
  match a, b with
  | VBytes x, VBytes y => bool_decide (x = y)
  | VStr x, VStr y => bool_decide (x = y)
  | VInt x, VInt y => bool_decide (x = y)
  | _, _ => false
  end.

Definition hex_digit (n : Z) : ascii :=
  match String.get (Z.to_nat n) "0123456789abcdef" with
  | Some c => c
  | None => "0"%char
  end.

Definition backslash : ascii := "\"%char.
Definition squote : ascii := "'"%char.
Definition dquote : ascii := "034"%char.

(** One byte of [repr(b)], as CPython writes it. *)
Definition repr_byte (quote : ascii) (b : byte) : string :=
  let c := ascii_of_byte b in
  let n := byte_val b in
  if bool_decide (c = quote) || bool_decide (c = backslash)
  then String backslash (String c "")
  else if n =? 9 then String backslash "t"
  else if n =? 10 then String backslash "n"
  else if n =? 13 then String backslash "r"
  else if (n <? 32) || (127 <=? n)
  then String backslash
         (String "x" (String (hex_digit (n / 16)) (String (hex_digit (n mod 16)) "")))
  else String c "".

Definition has_byte (c : ascii) (b : list byte) : bool :=
  existsb (fun x => bool_decide (ascii_of_byte x = c)) b.

(** [repr(b)] of a [bytes] object: single quotes unless the bytes hold a
    single quote and no double quote. *)
Definition bytes_repr (b : list byte) : string :=
  let quote := if has_byte squote b && negb (has_byte dquote b)
               then dquote else squote in
  String "b" (String quote
    (foldr (fun x acc => repr_byte quote x +:+ acc) (String quote "") b)).

(** [str(v)]. *)
Definition py_str (v : value) : string :=
  match v with
  | VStr s => s
  | VInt n => pretty n
  | VBytes b => bytes_repr b
  | VObject text => text
  end.

(** Calling a function [f] of two positional parameters: any other
    number of arguments raises [TypeError] before the body runs. *)
Definition apply2 {A} (f : value -> value -> M A) (args : list value) : M A :=
  match args with
  | [a; b] => f a b
  | _ => raise TypeError
  end.

(** [sys.exit(arg)]: an [int] is the exit status; any other object of
    [value] is printed and the status is 1. *)
Definition sys_exit {A} (arg : value) : M A :=
  match arg with
  | VInt n => raise (SystemExit n)
  | _ => raise (SystemExit 1)
  end.

(** ** Configuration and inbound messages *)

(** The settings read from the [global] section of the configuration
    file. *)
Record config := mkConfig {
  DEBUG : bool;
  LOGFILE : string;
  MQTT_HOST : string;
  MQTT_PORT : Z;
  MQTT_TOPIC : string;
  KEYFILE : string;
  KEYHOST : string;
  ZBXSERVER : string;
  ZBXPORT : Z
}.

(** The message object the client library hands to [on_message];
    [payload] is a [bytes] object on arrival and is an attribute the
    script assigns to. *)
Record MQTTMessage := mkMessage {
  topic : string;
  payload : value;
  qos : Z
}.

Definition set_payload (msg : MQTTMessage) (v : value) : MQTTMessage :=
  {| topic := topic msg; payload := v; qos := qos msg |}.

(** The signals for which the script installs [cleanup], with their Linux
    numbers. *)
Inductive signal := SIGTERM | SIGINT.

Definition signum_of (s : signal) : Z :=
  match s with
  | SIGTERM => 15
  | SIGINT => 2
  end.

(** ** The routing table: [class KeyMap] *)

(** [(rows[0], rows[1])] for one record of the reader. *)
Definition row_item (rows : list string) : M (string * string) :=
  match rows with
  | r0 :: r1 :: _ => mret (r0, r1)
  | _ => raise IndexError
  end.

(** [dict((rows[0], rows[1]) for rows in reader)]: records are inserted in
    order, so the last record of a topic wins. *)
Fixpoint dict_of_rows (reader : list (list string)) (acc : gmap string string)
  : M (gmap string string) :=
  match reader with
  | [] => mret acc
  | rows :: rest =>
      kv ← row_item rows;
      dict_of_rows rest (<[kv.1 := kv.2]> acc)
  end.

(** The body of [class KeyMap], run once when the class statement is
    executed; [reader] is what [csv.reader] yields for the key file.  The
    result is [KeyMap.mapdict]. *)
Definition KeyMap (reader : list (list string)) : M (gmap string string) :=
  logging_debug "Loading map" [];;
  dict_of_rows reader ∅.

(** ** The callbacks and the message pipeline *)

Definition APPNAME : string := "mqtt-zabbix".

(** The variable [client_id] of the script, computed from the process
    id. *)
Definition client_id (pid : Z) : string := APPNAME +:+ "_" +:+ pretty pid.

Section Bridge.

(** The configuration, the host name [socket.getfqdn()] returns, and the
    external sink: what [send_to_zabbix] answers (a boolean, or an
    exception of its own) for given arguments. *)
Variable cfg : config.
Variable fqdn : string.
Variable send_to_zabbix : list Metric -> string -> Z -> result bool.

Definition PRESENCETOPIC : string :=
  "clients/" +:+ fqdn +:+ "/" +:+ APPNAME +:+ "/state".

Definition call_send_to_zabbix (metrics : list Metric) (server : string) (port : Z)
  : M bool :=
  ([Send metrics server port], send_to_zabbix metrics server port).

Definition on_publish (mid : Z) : M unit :=
  logging_debug ("MID " +:+ py_str (VInt mid) +:+ " published.") [].

Definition on_subscribe (mid : Z) : M unit :=
  logging_debug ("Subscribe with mid " +:+ py_str (VInt mid) +:+ " received.") [].

Definition on_unsubscribe (mid : Z) : M unit :=
  logging_debug ("Unsubscribe with mid " +:+ py_str (VInt mid) +:+ " received.") [].

Definition on_log (text : string) : M unit :=
  logging_debug text [].

Definition process_connection : M unit :=
  logging_debug "Processing connection" [];;
  emit (Subscribe (MQTT_TOPIC cfg) 2).

(** [cleanup(signum, frame)]. *)
Definition cleanup (signum frame : value) : M unit :=
  logging_info "Disconnecting from broker" [];;
  emit (Publish PRESENCETOPIC "0" true);;
  emit Disconnect;;
  logging_info "Exiting on signal %d" [signum];;
  sys_exit signum.

(** [on_connect(self, mosq, obj, result_code)]; the first three
    arguments are not used.  Every refusal branch but the one of code 3
    calls [cleanup()] with no argument. *)
Definition on_connect (result_code : Z) : M unit :=
  logging_debug ("on_connect RC: " +:+ py_str (VInt result_code)) [];;
  if result_code =? 0 then
    logging_info "Connected to %s:%s" [VStr (MQTT_HOST cfg); VInt (MQTT_PORT cfg)];;
    emit (Publish PRESENCETOPIC "1" true);;
    process_connection
  else if result_code =? 1 then
    logging_info "Connection refused - unacceptable protocol version" [];;
    apply2 cleanup []
  else if result_code =? 2 then
    logging_info "Connection refused - identifier rejected" [];;
    apply2 cleanup []
  else if result_code =? 3 then
    logging_info "Connection refused - server unavailable" [];;
    logging_info "Retrying in 30 seconds" [];;
    emit (Sleep 30)
  else if result_code =? 4 then
    logging_info "Connection refused - bad user name or password" [];;
    apply2 cleanup []
  else if result_code =? 5 then
    logging_info "Connection refused - not authorised" [];;
    apply2 cleanup []
  else
    logging_warning ("Something went wrong. RC:" +:+ py_str (VInt result_code)) [];;
    apply2 cleanup [].

Definition on_disconnect (result_code : Z) : M unit :=
  if result_code =? 0 then
    logging_info "Clean disconnection" []
  else
    logging_info "Unexpected disconnection! Reconnecting in 5 seconds" [];;
    logging_debug "Result code: %s" [VInt result_code];;
    emit (Sleep 5).

(** [process_message(msg)].  [mapdict] is [KeyMap.mapdict] and [now] is
    what [time.strftime("%s")] returns during the call.  The membership
    test and the subscript of the same key are one lookup here. *)
Definition process_message (mapdict : gmap string string) (now : string)
    (msg : MQTTMessage) : M unit :=
  logging_debug ("Processing : " +:+ topic msg) [];;
  match mapdict !! topic msg with
  | Some zbxKey =>
      let msg := if py_eq (payload msg) (VStr "ON")
                 then set_payload msg (VInt 1) else msg in
      let msg := if py_eq (payload msg) (VStr "OFF")
                 then set_payload msg (VInt 0) else msg in
      '(zbxKey, zbxHost) ← unpack2 (str_split zbxKey "::");
      let zbxHost := if bool_decide (zbxHost = "") then KEYHOST cfg else zbxHost in
      logging_info "Sending %s %s to Zabbix to host %s key %s"
        [VStr (topic msg); payload msg; VStr zbxHost; VStr zbxKey];;
      payload_str ← decode_utf8 (payload msg);
      emit (Print "");;
      emit (Print "<class 'str'>");;
      emit (Print "");;
      call_send_to_zabbix
        [mkMetric zbxHost zbxKey (py_str (VStr payload_str)) now]
        (ZBXSERVER cfg) (ZBXPORT cfg);;
      mret tt
  | None =>
      logging_debug "Unknown: %s" [VStr (topic msg)]
  end.

(** [on_message(mosq, obj, msg)]: a caught exception is printed and
    raised again. *)
Definition on_message (mapdict : gmap string string) (now : string)
    (msg : MQTTMessage) : M unit :=
  try_except_Exception
    (logging_debug ("Received: " +:+ py_str (payload msg) +:+
                    " received on topic " +:+ py_str (VStr (topic msg)) +:+
                    " with QoS " +:+ py_str (VInt (qos msg))) [];;
     process_message mapdict now msg)
    (fun e => emit (PrintExn e);; raise e).

(** One run of the body of [connect()]: [answer] is what [mqttc.connect]
    returns or raises, [again] is the recursive call. *)
Definition connect_body (answer : result Z) (again : M unit) : M unit :=
  logging_debug "Connecting to %s:%s" [VStr (MQTT_HOST cfg); VInt (MQTT_PORT cfg)];;
  emit (WillSet PRESENCETOPIC "0" 0 true);;
  result ← ([Connect (MQTT_HOST cfg) (MQTT_PORT cfg) 60], answer);
  (if bool_decide (result ≠ 0) then
     logging_info "Connection failed with error code %s. Retrying" [VInt result];;
     emit (Sleep 10);;
     again
   else mret tt);;
  emit (SetCallback "on_connect");;
  emit (SetCallback "on_disconnect");;
  emit (SetCallback "on_publish");;
  emit (SetCallback "on_subscribe");;
  emit (SetCallback "on_unsubscribe");;
  emit (SetCallback "on_message");;
  if DEBUG cfg then emit (SetCallback "on_log") else mret tt.

(** [connect()].  [answers] lists what the successive calls of
    [mqttc.connect] answer; once the list is exhausted the call
    succeeds with 0. *)
Fixpoint connect (answers : list (result Z)) : M unit :=
  match answers with
  | [] => connect_body (Ok 0) (mret tt)
  | a :: rest => connect_body a (connect rest)
  end.

(** *** The network loop and the script's top level

    [mqttc.loop_forever()] belongs to the client library.  It is
    modelled by what the script can observe of it: the library calls the
    registered callbacks one at a time, in the order of the network
    events; an exception leaving a callback leaves [loop_forever]; after
    a refused or lost connection the library reconnects by itself; after
    a clean disconnection [loop_forever] returns.  A signal whose handler
    is [cleanup] runs [cleanup(signum, frame)] in the same thread; it is
    taken here between two callbacks.  The delay the library itself waits
    before it reconnects is not part of the model. *)

Inductive event :=
| EvConnack (rc : Z)                          (* on_connect(.., rc) *)
| EvDisconnected (rc : Z)                     (* on_disconnect(.., rc) *)
| EvMessage (msg : MQTTMessage) (now : string) (* on_message(.., msg) *)
| EvPublished (mid : Z)                       (* on_publish(.., mid) *)
| EvSubscribed (mid : Z)                      (* on_subscribe(.., mid, ..) *)
| EvUnsubscribed (mid : Z)                    (* on_unsubscribe(.., mid) *)
| EvLog (text : string)                       (* on_log(.., text), if set *)
| EvSignal (s : signal).                      (* cleanup(signum, frame) *)

(** The script keeps no phase variable: the phase of the session is read
    off the run.  [Connecting] is a connection attempt awaiting its
    answer, [Connected] an accepted one, [Disconnected] a session closed
    cleanly (then [loop_forever] has returned), [Terminated] a process
    that has ended. *)
Inductive phase := Disconnected | Connecting | Connected | Disconnecting | Terminated.

Definition handle (mapdict : gmap string string) (ph : phase) (ev : event) : M phase :=
  match ev with
  | EvConnack rc =>
      on_connect rc;;
      if rc =? 0 then mret Connected
      else emit Reconnect;; mret Connecting
  | EvDisconnected rc =>
      on_disconnect rc;;
      if rc =? 0 then mret Disconnected
      else emit Reconnect;; mret Connecting
  | EvMessage msg now => on_message mapdict now msg;; mret ph
  | EvPublished mid => on_publish mid;; mret ph
  | EvSubscribed mid => on_subscribe mid;; mret ph
  | EvUnsubscribed mid => on_unsubscribe mid;; mret ph
  | EvLog text => (if DEBUG cfg then on_log text else mret tt);; mret ph
  | EvSignal s => apply2 cleanup [VInt (signum_of s); VObject "frame"];; mret ph
  end.

(** [loop_forever] over the events that arrive.  [Ok Disconnected] is a
    loop that has returned; [Ok ph] for another [ph] is a loop still
    running, in phase [ph], once the events are consumed. *)
Fixpoint loop_forever (mapdict : gmap string string) (ph : phase)
    (events : list event) : M phase :=
  match events with
  | [] => mret ph
  | ev :: rest =>
      ph' ← handle mapdict ph ev;
      match ph' with
      | Disconnected => mret Disconnected
      | _ => loop_forever mapdict ph' rest
      end
  end.

(** The statements of the script at module level, in order, up to the
    call of [connect()]; the result is [KeyMap.mapdict]. *)
Definition startup (pid : Z) (reader : list (list string))
    (answers : list (result Z)) : M (gmap string string) :=
  let client_id := client_id pid in
  emit (NewClient "client_id");;
  logging_info ("Starting " +:+ APPNAME) [];;
  logging_info "INFO MODE" [];;
  logging_debug "DEBUG MODE" [];;
  mapdict ← KeyMap reader;
  emit (SetSignal (signum_of SIGTERM));;
  emit (SetSignal (signum_of SIGINT));;
  connect answers;;
  mret mapdict.

(** The whole script: the start, then [loop_forever] inside its
    [try ... except KeyboardInterrupt]. *)
Definition main (pid : Z) (reader : list (list string))
    (answers : list (result Z)) (events : list event) : M phase :=
  mapdict ← startup pid reader answers;
  try_except_KeyboardInterrupt
    (loop_forever mapdict Connecting events)
    (logging_info "Interrupted by keypress" [];; sys_exit (VInt 0)).

End Bridge.

(** The phase of the session after a run. *)
Definition session_phase (r : result phase) : phase :=
  match r with
  | Ok ph => ph
  | Raise _ => Terminated
  end.

(** The exit status of the process once it has ended: the argument of
    [sys.exit], 1 for an exception nobody caught, 0 when the script ran to
    its end; [None] while the loop is running. *)
Definition exit_status (r : result phase) : option Z :=
  match r with
  | Raise (SystemExit n) => Some (n mod 256)
  | Raise _ => Some 1
  | Ok Disconnected => Some 0
  | Ok _ => None
  end.

(** ** Observations on traces *)

(** The writes to the metrics sink found in a trace: the calls of
    [send_to_zabbix] with their arguments. *)
Fixpoint sink_writes (t : trace) : list (list Metric * string * Z) :=
  match t with
  | [] => []
  | Send metrics server port :: t' => (metrics, server, port) :: sink_writes t'
  | _ :: t' => sink_writes t'
  end.

Definition is_debug_log (e : effect) : bool :=
  match e with
  | Log DEBUG_LEVEL _ _ => true
  | _ => false
  end.

(** An effect that reaches the broker for a new session or a publication. *)
Definition is_publish_or_connect (e : effect) : bool :=
  match e with
  | Publish _ _ _ | Connect _ _ _ | Reconnect => true
  | _ => false
  end.

(** The calls that register a will, open a session or publish. *)
Definition is_session_call (e : effect) : bool :=
  match e with
  | WillSet _ _ _ _ | Connect _ _ _ | Publish _ _ _ => true
  | _ => false
  end.

(** [occurs sep s]: [sep] occurs in [s] as a substring. *)
Fixpoint occurs (sep s : string) : bool :=
  match s with
  | EmptyString => String.prefix sep s
  | String _ rest => String.prefix sep s || occurs sep rest
  end.

(** What the script may do to the outside world, effect by effect: the
    client is built with the literal identifier; the will and every
    publication go to the presence topic, retained, with payload ["0"]
    or ["1"]; the only subscription is the configured topic at QoS 2;
    connections go to the configured broker with a keep-alive of 60. *)
Definition script_effect (cfg : config) (fqdn : string) (e : effect) : Prop :=
  match e with
  | NewClient id => id = "client_id"
  | WillSet t p q r => t = PRESENCETOPIC fqdn /\ p = "0" /\ q = 0 /\ r = true
  | Publish t p r => t = PRESENCETOPIC fqdn /\ (p = "1" \/ p = "0") /\ r = true
  | Subscribe t q => t = MQTT_TOPIC cfg /\ q = 2
  | Connect h p k => h = MQTT_HOST cfg /\ p = MQTT_PORT cfg /\ k = 60
  | Sleep n => n = 30 \/ n = 5 \/ n = 10
  | SetSignal n => n = 15 \/ n = 2
  | Send ms s p => s = ZBXSERVER cfg /\ p = ZBXPORT cfg /\ length ms = 1%nat
  | Log _ _ _ | Print _ | PrintExn _ | SetCallback _ | Disconnect | Reconnect => True
  end.

(** The host a routed message is sent for: line 184 of the script, as a
    function of the host part of the mapping value. *)
Definition resolved_host (cfg : config) (zbxHost : string) : string :=
  if bool_decide (zbxHost = "") then KEYHOST cfg else zbxHost.

(** The debug record [on_message] writes first. *)
Definition received_record (msg : MQTTMessage) : effect :=
  Log DEBUG_LEVEL
    ("Received: " +:+ py_str (payload msg) +:+
     " received on topic " +:+ py_str (VStr (topic msg)) +:+
     " with QoS " +:+ py_str (VInt (qos msg))) [].

(** The dictionary the records build when each has two fields. *)
Definition table_of (reader : list (list string)) (acc : gmap string string)
  : gmap string string :=
  foldl (fun acc rows =>
           match rows with
           | r0 :: r1 :: _ => <[r0 := r1]> acc
           | _ => acc
           end) acc reader.

(** The record [on_connect] writes for a refusal code other than 3. *)
Definition refusal_record (result_code : Z) : effect :=
  if result_code =? 1 then
    Log INFO_LEVEL "Connection refused - unacceptable protocol version" []
  else if result_code =? 2 then
    Log INFO_LEVEL "Connection refused - identifier rejected" []
  else if result_code =? 4 then
    Log INFO_LEVEL "Connection refused - bad user name or password" []
  else if result_code =? 5 then
    Log INFO_LEVEL "Connection refused - not authorised" []
  else
    Log WARNING_LEVEL ("Something went wrong. RC:" +:+ py_str (VInt result_code)) [].

(** Everything [cleanup(signum, frame)] does before it raises
    [SystemExit]. *)
Definition cleanup_trace (fqdn : string) (signum : value) : trace :=
  [Log INFO_LEVEL "Disconnecting from broker" [];
   Publish (PRESENCETOPIC fqdn) "0" true;
   Disconnect;
   Log INFO_LEVEL "Exiting on signal %d" [signum]].

(** No [Connect] is met in a trace before a [WillSet]. *)
Fixpoint will_precedes_connect (t : trace) : bool :=
  match t with
  | [] => true
  | WillSet _ _ _ _ :: _ => true
  | Connect _ _ _ :: _ => false
  | _ :: t' => will_precedes_connect t'
  end.

(** ** Concrete inputs used by the examples below *)

Definition example_cfg : config :=
  {| DEBUG := false; LOGFILE := "/var/log/mqtt-zabbix.log";
     MQTT_HOST := "localhost"; MQTT_PORT := 1883; MQTT_TOPIC := "/raw/#";
     KEYFILE := "/etc/mqtt-zabbix/keys.csv"; KEYHOST := "monitor01";
     ZBXSERVER := "zabbix.example"; ZBXPORT := 10051 |}.

Definition example_fqdn : string := "bridge.example".

(** A sink that accepts every metric. *)
Definition sink_accepts : list Metric -> string -> Z -> result bool :=
  fun _ _ _ => Ok true.

(** The routing tables of the end-to-end scenarios of the specification. *)
Definition kitchen_table : gmap string string :=
  {[ "sensors/kitchen/power" := "power.kitchen::host1" ]}.

Definition hall_table : gmap string string :=
  {[ "sensors/hall/light" := "light.hall::" ]}.

Definition bytes_of (s : string) : list byte := String.list_byte_of_string s.

(** ** Further observations, for the properties beyond the claims *)

(** How many effects of a trace pass a test. *)
Definition count_effects (f : effect -> bool) (t : trace) : nat :=
  length (List.filter f t).

Definition is_connect (e : effect) : bool :=
  match e with Connect _ _ _ => true | _ => false end.

Definition is_will_set (e : effect) : bool :=
  match e with WillSet _ _ _ _ => true | _ => false end.

Definition is_publish (e : effect) : bool :=
  match e with Publish _ _ _ => true | _ => false end.

Definition is_subscribe (e : effect) : bool :=
  match e with Subscribe _ _ => true | _ => false end.

Definition is_sleep (e : effect) : bool :=
  match e with Sleep _ => true | _ => false end.

Definition is_set_signal (e : effect) : bool :=
  match e with SetSignal _ => true | _ => false end.

Definition is_set_callback (e : effect) : bool :=
  match e with SetCallback _ => true | _ => false end.

Definition is_warning_log (e : effect) : bool :=
  match e with Log WARNING_LEVEL _ _ => true | _ => false end.

(** A call that reaches the broker. *)
Definition is_broker_call (e : effect) : bool :=
  match e with
  | WillSet _ _ _ _ | Connect _ _ _ | Publish _ _ _ | Subscribe _ _ | Disconnect => true
  | _ => false
  end.

(** The seconds a trace spends in [time.sleep]. *)
Fixpoint slept (t : trace) : Z :=
  match t with
  | [] => 0
  | Sleep n :: t' => n + slept t'
  | _ :: t' => slept t'
  end.

(** The effects the message pipeline is made of: debug and info records,
    prints, and the call of the sink. *)
Definition is_message_effect (e : effect) : bool :=
  match e with
  | Log DEBUG_LEVEL _ _ | Log INFO_LEVEL _ _ | Print _ | PrintExn _ | Send _ _ _ => true
  | _ => false
  end.

(** The second fields of the records whose first field is [tp], in the
    order of the key file. *)
Fixpoint values_for (tp : string) (reader : list (list string)) : list string :=
  match reader with
  | [] => []
  | (r0 :: r1 :: _) :: rest =>
      if bool_decide (r0 = tp) then r1 :: values_for tp rest else values_for tp rest
  | _ :: rest => values_for tp rest
  end.

(** The seconds the callback of an event sleeps: 30 after a refusal with
    code 3, 5 after a disconnection with a non-zero code. *)
Definition sleep_of (ev : event) : Z :=
  match ev with
  | EvConnack rc => if rc =? 3 then 30 else 0
  | EvDisconnected rc => if rc =? 0 then 0 else 5
  | _ => 0
  end.

Fixpoint waits (events : list event) : Z :=
  match events with
  | [] => 0
  | ev :: rest => sleep_of ev + waits rest
  end.

(** The registrations at the end of [connect()]. *)
Definition callbacks_trace (cfg : config) : trace :=
  [SetCallback "on_connect"; SetCallback "on_disconnect"; SetCallback "on_publish";
   SetCallback "on_subscribe"; SetCallback "on_unsubscribe"; SetCallback "on_message"] ++
  (if DEBUG cfg then [SetCallback "on_log"] else []).

(** The three calls every run of [connect()] starts with. *)
Definition connect_attempt (cfg : config) (fqdn : string) : trace :=
  [Log DEBUG_LEVEL "Connecting to %s:%s" [VStr (MQTT_HOST cfg); VInt (MQTT_PORT cfg)];
   WillSet (PRESENCETOPIC fqdn) "0" 0 true;
   Connect (MQTT_HOST cfg) (MQTT_PORT cfg) 60].

(** The event is a CONNACK that accepts the connection. *)
Definition accepted (ev : event) : bool :=
  match ev with EvConnack rc => rc =? 0 | _ => false end.

(** The value [msg.payload] holds after lines 178 to 181 of the script. *)
Definition normalised_payload (v : value) : value :=
  if py_eq v (VStr "ON") then VInt 1
  else if py_eq v (VStr "OFF") then VInt 0
  else v.

(** A sink that refuses every metric: [send_to_zabbix] returns [False]. *)
Definition sink_rejects : list Metric -> string -> Z -> result bool :=
  fun _ _ _ => Ok false.

(** A sink whose call is interrupted. *)
Definition sink_interrupted : list Metric -> string -> Z -> result bool :=
  fun _ _ _ => Raise KeyboardInterrupt.

(** ** Proof automation *)

(** A trace given as a list: each effect is checked in turn. *)
Ltac concrete_ok :=
  repeat (apply Forall_cons_2 || apply Forall_nil_2);
  cbn [script_effect effects fst length]; auto 10.

(** * Properties *)

(** ** The monad *)

Lemma effects_bind {A B} (c : M A) (k : A -> M B) :
  effects (c ≫= k) =
  effects c ++ match outcome c with Ok a => effects (k a) | Raise _ => [] end.
Proof.
  destruct c as [t [a|e]]; unfold mbind, M_bind, bind, effects, outcome; simpl.
  - destruct (k a); reflexivity.
  - symmetry; apply app_nil_r.
Qed.

Lemma outcome_bind {A B} (c : M A) (k : A -> M B) :
  outcome (c ≫= k) =
  match outcome c with Ok a => outcome (k a) | Raise e => Raise e end.
Proof.
  destruct c as [t [a|e]]; unfold mbind, M_bind, bind, effects, outcome; simpl.
  - destruct (k a); reflexivity.
  - reflexivity.
Qed.

Lemma M_eta {A} (c : M A) : c = (effects c, outcome c).
Proof. destruct c; reflexivity. Qed.

Lemma bind_Ok {A B} (t : trace) (a : A) (k : A -> M B) :
  (t, Ok a) ≫= k = (t ++ effects (k a), outcome (k a)).
Proof. unfold mbind, M_bind, bind. destruct (k a); reflexivity. Qed.

Lemma bind_Raise {A B} (t : trace) (e : exn) (k : A -> M B) :
  (t, Raise e) ≫= k = (t, Raise e).
Proof. reflexivity. Qed.

Lemma Forall_bind {A B} (P : effect -> Prop) (c : M A) (k : A -> M B) :
  Forall P (effects c) ->
  (forall a, Forall P (effects (k a))) ->
  Forall P (effects (c ≫= k)).
Proof.
  intros Hc Hk. rewrite effects_bind. apply Forall_app. split; [exact Hc|].
  destruct (outcome c); [apply Hk | constructor].
Qed.

Lemma Forall_emit (P : effect -> Prop) (e : effect) :
  P e -> Forall P (effects (emit e)).
Proof. intros H. repeat constructor. exact H. Qed.

Lemma Forall_try_except_Exception {A} (P : effect -> Prop) (c : M A) (h : exn -> M A) :
  Forall P (effects c) ->
  (forall e, Forall P (effects (h e))) ->
  Forall P (effects (try_except_Exception c h)).
Proof.
  intros Hc Hh. destruct c as [t [a|e]]; simpl; [exact Hc|].
  destruct (is_Exception e); [|exact Hc].
  specialize (Hh e). destruct (h e) as [t' r]. simpl in *.
  apply Forall_app. split; assumption.
Qed.

Lemma Forall_try_except_KeyboardInterrupt {A} (P : effect -> Prop) (c h : M A) :
  Forall P (effects c) ->
  Forall P (effects h) ->
  Forall P (effects (try_except_KeyboardInterrupt c h)).
Proof.
  intros Hc Hh. destruct c as [t [a|e]]; simpl; [exact Hc|].
  destruct e; try exact Hc.
  destruct h as [t' r]. simpl in *. apply Forall_app. split; assumption.
Qed.

(** ** Sanity checks of the primitives *)

Example split_ex1 : str_split "power.kitchen::host1" "::" = ["power.kitchen"; "host1"].
Proof. reflexivity. Qed.
Example split_ex2 : str_split "a::::b" "::" = ["a"; ""; "b"].
Proof. reflexivity. Qed.
Example split_ex3 : str_split "a:::" "::" = ["a"; ":"].
Proof. reflexivity. Qed.
Example split_ex4 : str_split "light.hall::" "::" = ["light.hall"; ""].
Proof. reflexivity. Qed.
Example split_ex5 : str_split "" "::" = [""].
Proof. reflexivity. Qed.
Example repr_ex1 : bytes_repr (String.list_byte_of_string "ON") = "b'ON'".
Proof. reflexivity. Qed.
Example repr_ex2 : bytes_repr [xff; x0a; x27] = String "b" (String dquote ("\xff\n'" +:+ String dquote "")).
Proof. vm_compute. reflexivity. Qed.
Example str_ex1 : py_str (VInt (-15)) = "-15".
Proof. vm_compute. reflexivity. Qed.
Example utf8_ex1 : valid_utf8 [xc3; xa9] = true /\ valid_utf8 [xff] = false
  /\ valid_utf8 [xc0; x80] = false /\ valid_utf8 [xed; xa0; x80] = false
  /\ valid_utf8 [xf0; x9f; x98; x80] = true /\ valid_utf8 [xe2; x82] = false.
Proof. vm_compute. repeat split. Qed.

(** ** The message pipeline *)

Lemma py_eq_bytes_str (b : list byte) (s : string) : py_eq (VBytes b) (VStr s) = false.
Proof. reflexivity. Qed.

(** A routing miss: two debug records and nothing else. *)
Lemma process_message_miss cfg send mapdict now msg :
  mapdict !! topic msg = None ->
  process_message cfg send mapdict now msg =
  ([Log DEBUG_LEVEL ("Processing : " +:+ topic msg) [];
    Log DEBUG_LEVEL "Unknown: %s" [VStr (topic msg)]], Ok tt).
Proof.
  intros Hmiss. unfold process_message. rewrite Hmiss. reflexivity.
Qed.

(** A routed message with a [bytes] payload, when the mapping value splits
    in two: everything [process_message] does. *)
Lemma process_message_routed cfg send mapdict now tp b q raw k h :
  mapdict !! tp = Some raw ->
  str_split raw "::" = [k; h] ->
  process_message cfg send mapdict now (mkMessage tp (VBytes b) q) =
  let host := resolved_host cfg h in
  let metric := mkMetric host k (String.string_of_list_byte b) now in
  ([Log DEBUG_LEVEL ("Processing : " +:+ tp) [];
    Log INFO_LEVEL "Sending %s %s to Zabbix to host %s key %s"
      [VStr tp; VBytes b; VStr host; VStr k]] ++
   (if valid_utf8 b
    then [Print ""; Print "<class 'str'>"; Print "";
          Send [metric] (ZBXSERVER cfg) (ZBXPORT cfg)]
    else []),
   if valid_utf8 b
   then match send [metric] (ZBXSERVER cfg) (ZBXPORT cfg) with
        | Ok _ => Ok tt
        | Raise e => Raise e
        end
   else Raise UnicodeDecodeError).
Proof.
  intros Hlook Hsplit. unfold process_message, resolved_host.
  cbv beta iota zeta delta [topic payload set_payload py_eq].
  rewrite Hlook, Hsplit.
  unfold unpack2, decode_utf8, bytes_decode_utf8, call_send_to_zabbix.
  destruct (valid_utf8 b); [|reflexivity].
  cbv beta iota zeta delta
    [mbind M_bind bind mret M_ret ret logging_debug logging_info emit py_str].
  destruct (send _ _ _); reflexivity.
Qed.

(** A routed message whose mapping value does not split in two: the
    unpacking raises before anything is sent. *)
Lemma process_message_bad_value cfg send mapdict now msg raw :
  mapdict !! topic msg = Some raw ->
  length (str_split raw "::") <> 2%nat ->
  process_message cfg send mapdict now msg =
  ([Log DEBUG_LEVEL ("Processing : " +:+ topic msg) []], Raise ValueError).
Proof.
  intros Hlook Hlen. unfold process_message. rewrite Hlook.
  destruct (str_split raw "::") as [|a [|b [|c l]]]; simpl in Hlen; try lia;
    repeat (destruct (py_eq _ _)); reflexivity.
Qed.

Lemma sink_writes_app (t1 t2 : trace) :
  sink_writes (t1 ++ t2) = sink_writes t1 ++ sink_writes t2.
Proof.
  induction t1 as [|e t1 IH]; [reflexivity|].
  destruct e; simpl; rewrite ?IH; reflexivity.
Qed.

(** [on_message] adds its debug record in front of what [process_message]
    does and, when an [Exception] comes out of it, the print of the
    exception behind; the result is the one of [process_message]. *)
Lemma on_message_unfold cfg send mapdict now msg :
  on_message cfg send mapdict now msg =
  (received_record msg :: effects (process_message cfg send mapdict now msg) ++
     match outcome (process_message cfg send mapdict now msg) with
     | Raise e => if is_Exception e then [PrintExn e] else []
     | Ok _ => []
     end,
   outcome (process_message cfg send mapdict now msg)).
Proof.
  unfold on_message, received_record.
  destruct (process_message cfg send mapdict now msg) as [t [[]|e]] eqn:Hp;
    cbv beta iota zeta delta
      [mbind M_bind bind logging_debug emit try_except_Exception effects outcome fst snd].
  - rewrite app_nil_r. reflexivity.
  - destruct (is_Exception e); cbn; rewrite ?app_nil_r; reflexivity.
Qed.

Lemma on_message_outcome cfg send mapdict now msg :
  outcome (on_message cfg send mapdict now msg) =
  outcome (process_message cfg send mapdict now msg).
Proof. rewrite on_message_unfold. reflexivity. Qed.

Lemma on_message_sink_writes cfg send mapdict now msg :
  sink_writes (effects (on_message cfg send mapdict now msg)) =
  sink_writes (effects (process_message cfg send mapdict now msg)).
Proof.
  rewrite on_message_unfold. cbn [effects fst received_record sink_writes].
  rewrite sink_writes_app.
  destruct (outcome _) as [|e]; [apply app_nil_r|].
  destruct (is_Exception e); apply app_nil_r.
Qed.

(** What reaches the sink for a routed [bytes] payload: one metric holding
    the decoded payload when it is well-formed UTF-8, and nothing
    otherwise. *)
Lemma routed_sink_writes cfg send mapdict now tp b q raw k h :
  mapdict !! tp = Some raw ->
  str_split raw "::" = [k; h] ->
  sink_writes (effects (on_message cfg send mapdict now (mkMessage tp (VBytes b) q))) =
  if valid_utf8 b
  then [([mkMetric (resolved_host cfg h) k (String.string_of_list_byte b) now],
         ZBXSERVER cfg, ZBXPORT cfg)]
  else [].
Proof.
  intros Hlook Hsplit. rewrite on_message_sink_writes.
  rewrite (process_message_routed _ _ _ _ _ _ _ _ _ _ Hlook Hsplit).
  cbv zeta. cbn [effects fst]. rewrite sink_writes_app.
  destruct (valid_utf8 b); reflexivity.
Qed.

(** The forwarded text is the payload: encoding it gives the bytes that
    arrived. *)
Lemma forwarded_value_is_payload (b : list byte) :
  String.list_byte_of_string (String.string_of_list_byte b) = b.
Proof. apply String.list_byte_of_string_of_list_byte. Qed.

(** ** Splitting a mapping value *)

Lemma append_assoc_char (a : string) (c : ascii) (s : string) :
  (a +:+ String c "") +:+ s = a +:+ String c s.
Proof. induction a as [|x a IH]; [reflexivity|]. exact (f_equal (String x) IH). Qed.

Lemma append_empty_r (a : string) : a +:+ "" = a.
Proof. induction a as [|x a IH]; [reflexivity|]. exact (f_equal (String x) IH). Qed.

(** Without an occurrence of the separator nothing is cut. *)
Lemma split_go_no_occurrence (sep cur s : string) :
  occurs sep s = false -> split_go sep O cur s = [cur +:+ s].
Proof.
  revert cur. induction s as [|c s IH]; intros cur Hocc.
  - simpl. rewrite append_empty_r. reflexivity.
  - cbn [occurs] in Hocc. apply orb_false_iff in Hocc as [Hpre Hrest].
    cbn [split_go]. rewrite Hpre. rewrite (IH _ Hrest).
    rewrite append_assoc_char. reflexivity.
Qed.

Lemma str_split_no_occurrence (s sep : string) :
  occurs sep s = false -> str_split s sep = [s].
Proof. intros H. unfold str_split. rewrite (split_go_no_occurrence _ _ _ H). reflexivity. Qed.

(** ** The routing table *)

Lemma dict_of_rows_total (reader : list (list string)) (acc : gmap string string) :
  Forall (fun rows => (2 <= length rows)%nat) reader ->
  dict_of_rows reader acc = ([], Ok (table_of reader acc)).
Proof.
  revert acc. induction reader as [|rows rest IH]; intros acc Hall.
  - reflexivity.
  - apply Forall_cons in Hall as [Hrow Hrest].
    destruct rows as [|r0 [|r1 more]]; simpl in Hrow; try lia.
    cbn [dict_of_rows row_item]. unfold mret, M_ret, ret. rewrite bind_Ok.
    cbn [fst snd]. rewrite (IH _ Hrest). reflexivity.
Qed.

Lemma KeyMap_total (reader : list (list string)) :
  Forall (fun rows => (2 <= length rows)%nat) reader ->
  KeyMap reader = ([Log DEBUG_LEVEL "Loading map" []], Ok (table_of reader ∅)).
Proof.
  intros Hall. unfold KeyMap. rewrite (dict_of_rows_total _ _ Hall). reflexivity.
Qed.

Lemma table_of_app (pre post : list (list string)) (acc : gmap string string) :
  table_of (pre ++ post) acc = table_of post (table_of pre acc).
Proof. unfold table_of. apply foldl_app. Qed.

(** Records of other topics leave the entry of a topic alone. *)
Lemma table_of_other (post : list (list string)) (acc : gmap string string) (tp : string) :
  Forall (fun rows => head rows <> Some tp) post ->
  table_of post acc !! tp = acc !! tp.
Proof.
  revert acc. induction post as [|rows rest IH]; intros acc Hall; [reflexivity|].
  apply Forall_cons in Hall as [Hrow Hrest].
  change (table_of (rows :: rest) acc) with
    (table_of rest (match rows with r0 :: r1 :: _ => <[r0 := r1]> acc | _ => acc end)).
  rewrite (IH _ Hrest).
  destruct rows as [|r0 [|r1 more]]; try reflexivity.
  apply lookup_insert_ne. intros ->. apply Hrow. reflexivity.
Qed.

(** The last record of a topic decides its entry, whatever its value. *)
Lemma table_of_last (pre post : list (list string)) (tp raw : string) (extra : list string) :
  Forall (fun rows => head rows <> Some tp) post ->
  table_of (pre ++ (tp :: raw :: extra) :: post) ∅ !! tp = Some raw.
Proof.
  intros Hpost. rewrite table_of_app.
  change (table_of ((tp :: raw :: extra) :: post) ?acc) with
    (table_of post (<[tp := raw]> acc)).
  rewrite (table_of_other _ _ _ Hpost). apply lookup_insert_eq.
Qed.

(** ** Claims on the message pipeline *)

(** C1.  The claim asks that the payloads ["ON"] and ["OFF"] reach the sink
    as ["1"] and ["0"].  The script compares the [bytes] payload with the
    [str] literals, which never holds, so both payloads are forwarded as
    they arrived: for every routed topic whose mapping value splits in two,
    the metric sent for payload [b"ON"] has value ["ON"] and the one for
    [b"OFF"] has value ["OFF"]. *)
Theorem C1_ON_OFF_forwarded_verbatim cfg send mapdict now tp q raw k h :
  mapdict !! tp = Some raw ->
  str_split raw "::" = [k; h] ->
  sink_writes (effects (on_message cfg send mapdict now
                          (mkMessage tp (VBytes (bytes_of "ON")) q))) =
    [([mkMetric (resolved_host cfg h) k "ON" now], ZBXSERVER cfg, ZBXPORT cfg)]
  /\ sink_writes (effects (on_message cfg send mapdict now
                             (mkMessage tp (VBytes (bytes_of "OFF")) q))) =
    [([mkMetric (resolved_host cfg h) k "OFF" now], ZBXSERVER cfg, ZBXPORT cfg)].
Proof.
  intros Hlook Hsplit.
  split; rewrite (routed_sink_writes _ _ _ _ _ _ _ _ _ _ Hlook Hsplit); reflexivity.
Qed.

(** Scenario A of the specification, on the script: the metric goes to
    ["host1"] under key ["power.kitchen"] with value ["ON"], not ["1"]. *)
Lemma C1_ON_OFF_forwarded_verbatim_witness :
  kitchen_table !! "sensors/kitchen/power" = Some "power.kitchen::host1"
  /\ str_split "power.kitchen::host1" "::" = ["power.kitchen"; "host1"]
  /\ sink_writes (effects (on_message example_cfg sink_accepts kitchen_table "1700000000"
                             (mkMessage "sensors/kitchen/power" (VBytes (bytes_of "ON")) 0))) =
     [([mkMetric "host1" "power.kitchen" "ON" "1700000000"], "zabbix.example", 10051)].
Proof.
  split; [reflexivity|]. split; [reflexivity|].
  apply (C1_ON_OFF_forwarded_verbatim example_cfg sink_accepts kitchen_table
           "1700000000" "sensors/kitchen/power" 0 "power.kitchen::host1"
           "power.kitchen" "host1"); reflexivity.
Defined.

(** The part of C1 the script does meet: a well-formed UTF-8 payload of a
    routed topic reaches the sink once, as the text whose encoding is the
    payload. *)
Lemma payload_passes_through cfg send mapdict now tp b q raw k h :
  mapdict !! tp = Some raw ->
  str_split raw "::" = [k; h] ->
  valid_utf8 b = true ->
  exists v,
    sink_writes (effects (on_message cfg send mapdict now (mkMessage tp (VBytes b) q))) =
      [([mkMetric (resolved_host cfg h) k v now], ZBXSERVER cfg, ZBXPORT cfg)]
    /\ String.list_byte_of_string v = b.
Proof.
  intros Hlook Hsplit Hvalid. exists (String.string_of_list_byte b).
  rewrite (routed_sink_writes _ _ _ _ _ _ _ _ _ _ Hlook Hsplit), Hvalid.
  split; [reflexivity | apply forwarded_value_is_payload].
Qed.

(** C2.  For a message whose topic is not a key of the routing table,
    [on_message] returns normally, nothing is written to the sink, and
    all it does is write debug records, the last of which reports the
    unknown topic. *)
Theorem C2_unrouted_topic_is_dropped cfg send mapdict now msg :
  mapdict !! topic msg = None ->
  outcome (on_message cfg send mapdict now msg) = Ok tt
  /\ sink_writes (effects (on_message cfg send mapdict now msg)) = []
  /\ forallb is_debug_log (effects (on_message cfg send mapdict now msg)) = true
  /\ last (effects (on_message cfg send mapdict now msg)) =
     Some (Log DEBUG_LEVEL "Unknown: %s" [VStr (topic msg)]).
Proof.
  intros Hmiss. rewrite on_message_unfold.
  rewrite (process_message_miss _ _ _ _ _ Hmiss).
  repeat split.
Qed.

Lemma C2_unrouted_topic_is_dropped_witness :
  kitchen_table !! "sensors/attic/temp" = None
  /\ effects (on_message example_cfg sink_accepts kitchen_table "1700000000"
                (mkMessage "sensors/attic/temp" (VBytes (bytes_of "21.5")) 0)) =
     [Log DEBUG_LEVEL "Received: b'21.5' received on topic sensors/attic/temp with QoS 0" [];
      Log DEBUG_LEVEL "Processing : sensors/attic/temp" [];
      Log DEBUG_LEVEL "Unknown: %s" [VStr "sensors/attic/temp"]]
  /\ sink_writes (effects (on_message example_cfg sink_accepts kitchen_table "1700000000"
                (mkMessage "sensors/attic/temp" (VBytes (bytes_of "21.5")) 0))) = [].
Proof.
  split; [reflexivity|]. split; [vm_compute; reflexivity|].
  apply (C2_unrouted_topic_is_dropped example_cfg sink_accepts kitchen_table
           "1700000000" (mkMessage "sensors/attic/temp" (VBytes (bytes_of "21.5")) 0)).
  reflexivity.
Defined.

(** C3, as stated, fails: a routed message whose payload is not
    well-formed UTF-8 makes [on_message] print the [UnicodeDecodeError]
    and raise it again to its caller. *)
Lemma C3_on_message_raises :
  on_message example_cfg sink_accepts kitchen_table "1700000000"
    (mkMessage "sensors/kitchen/power" (VBytes [xff]) 0) =
  ([Log DEBUG_LEVEL
      "Received: b'\xff' received on topic sensors/kitchen/power with QoS 0" [];
    Log DEBUG_LEVEL "Processing : sensors/kitchen/power" [];
    Log INFO_LEVEL "Sending %s %s to Zabbix to host %s key %s"
      [VStr "sensors/kitchen/power"; VBytes [xff]; VStr "host1"; VStr "power.kitchen"];
    PrintExn UnicodeDecodeError],
   Raise UnicodeDecodeError).
Proof. vm_compute. reflexivity. Qed.

(** C3, amended.  [on_message] raises to its caller exactly what
    [process_message] raises.  For a [bytes] payload: nothing on a routing
    miss; [ValueError] when the mapping value of the topic does not split
    in exactly two parts on ["::"]; [UnicodeDecodeError] when the payload is
    not well-formed UTF-8; otherwise whatever the call of [send_to_zabbix]
    raises, and nothing when that call returns, be it with [False]. *)
Theorem C3_on_message_outcome cfg send mapdict now tp b q :
  outcome (on_message cfg send mapdict now (mkMessage tp (VBytes b) q)) =
  match mapdict !! tp with
  | None => Ok tt
  | Some raw =>
      match str_split raw "::" with
      | [k; h] =>
          if valid_utf8 b
          then match send [mkMetric (resolved_host cfg h) k
                             (String.string_of_list_byte b) now]
                      (ZBXSERVER cfg) (ZBXPORT cfg) with
               | Ok _ => Ok tt
               | Raise e => Raise e
               end
          else Raise UnicodeDecodeError
      | _ => Raise ValueError
      end
  end.
Proof.
  rewrite on_message_outcome.
  destruct (mapdict !! tp) as [raw|] eqn:Hlook.
  - destruct (str_split raw "::") as [|k [|h [|x l]]] eqn:Hsplit.
    1,2,4: rewrite (process_message_bad_value cfg send mapdict now
                      (mkMessage tp (VBytes b) q) raw Hlook);
      [reflexivity | rewrite Hsplit; simpl; lia].
    rewrite (process_message_routed _ _ _ _ _ _ _ _ _ _ Hlook Hsplit).
    reflexivity.
  - rewrite (process_message_miss cfg send mapdict now
               (mkMessage tp (VBytes b) q) Hlook).
    reflexivity.
Qed.

(** C4, as stated, fails: the table is built from a record whose mapping
    value holds no ["::"], and the value is stored as it is. *)
Lemma C4_KeyMap_accepts_value_without_separator :
  occurs "::" "door.state" = false
  /\ KeyMap [["sensors/door"; "door.state"]] =
     ([Log DEBUG_LEVEL "Loading map" []], Ok {[ "sensors/door" := "door.state" ]}).
Proof. split; reflexivity. Qed.

(** C4, amended.  Building the table never looks at the mapping value: when
    every record has at least two fields the construction succeeds and the
    last record of a topic gives its entry, also when its value holds no
    ["::"].  The missing separator shows when a message arrives on that
    topic: [process_message] raises [ValueError] at the unpacking of the
    split, after its first debug record and before anything is sent. *)
Theorem C4_missing_separator_found_at_dispatch
    cfg send (pre post : list (list string)) tp raw extra now pl q :
  Forall (fun rows => (2 <= length rows)%nat) (pre ++ post) ->
  Forall (fun rows => head rows <> Some tp) post ->
  occurs "::" raw = false ->
  exists mapdict,
    KeyMap (pre ++ (tp :: raw :: extra) :: post) =
      ([Log DEBUG_LEVEL "Loading map" []], Ok mapdict)
    /\ mapdict !! tp = Some raw
    /\ process_message cfg send mapdict now (mkMessage tp pl q) =
       ([Log DEBUG_LEVEL ("Processing : " +:+ tp) []], Raise ValueError).
Proof.
  intros Hall Hpost Hocc.
  exists (table_of (pre ++ (tp :: raw :: extra) :: post) ∅).
  assert (Hlook : table_of (pre ++ (tp :: raw :: extra) :: post) ∅ !! tp = Some raw)
    by (apply table_of_last; exact Hpost).
  split; [|split; [exact Hlook|]].
  - apply KeyMap_total. apply Forall_app in Hall as [Hpre Hpost2].
    apply Forall_app. split; [exact Hpre|]. constructor; [simpl; lia | exact Hpost2].
  - apply (process_message_bad_value cfg send _ now (mkMessage tp pl q) raw Hlook).
    rewrite (str_split_no_occurrence _ _ Hocc). simpl. lia.
Qed.

Lemma C4_missing_separator_found_at_dispatch_witness :
  exists mapdict,
    KeyMap [["sensors/door"; "door.state"]] =
      ([Log DEBUG_LEVEL "Loading map" []], Ok mapdict)
    /\ mapdict !! "sensors/door" = Some "door.state"
    /\ process_message example_cfg sink_accepts mapdict "1700000000"
         (mkMessage "sensors/door" (VBytes (bytes_of "open")) 0) =
       ([Log DEBUG_LEVEL "Processing : sensors/door" []], Raise ValueError).
Proof.
  apply (C4_missing_separator_found_at_dispatch example_cfg sink_accepts [] []
           "sensors/door" "door.state" [] "1700000000" (VBytes (bytes_of "open")) 0).
  - constructor.
  - constructor.
  - reflexivity.
Defined.

(** A record with fewer than two fields is what stops the construction. *)
Lemma KeyMap_short_record (pre post : list (list string)) (rows : list string) :
  Forall (fun rows => (2 <= length rows)%nat) pre ->
  (length rows < 2)%nat ->
  KeyMap (pre ++ rows :: post) = ([Log DEBUG_LEVEL "Loading map" []], Raise IndexError).
Proof.
  intros Hpre Hshort. unfold KeyMap.
  assert (H : forall acc, dict_of_rows (pre ++ rows :: post) acc = ([], Raise IndexError)).
  { induction pre as [|r pre IH]; intros acc.
    - destruct rows as [|r0 [|r1 more]]; simpl in Hshort; try lia; reflexivity.
    - apply Forall_cons in Hpre as [Hr Hpre].
      destruct r as [|r0 [|r1 more]]; simpl in Hr; try lia.
      cbn [app dict_of_rows row_item]. unfold mret, M_ret, ret. rewrite bind_Ok.
      cbn [fst snd]. rewrite (IH Hpre). reflexivity. }
  rewrite H. reflexivity.
Qed.

(** C9.  For a routed topic whose mapping value splits into a key and an
    empty host, whatever the payload, the metric that reaches the sink
    carries the host [KEYHOST] of the configuration in force when the
    message is handled (and nothing reaches the sink when the payload is
    not well-formed UTF-8).  The table holds the value as read, with its
    empty host, and does not depend on the configuration. *)
Theorem C9_empty_host_resolves_to_default cfg send mapdict now tp b q raw k :
  mapdict !! tp = Some raw ->
  str_split raw "::" = [k; ""] ->
  sink_writes (effects (on_message cfg send mapdict now (mkMessage tp (VBytes b) q))) =
  if valid_utf8 b
  then [([mkMetric (KEYHOST cfg) k (String.string_of_list_byte b) now],
         ZBXSERVER cfg, ZBXPORT cfg)]
  else [].
Proof.
  intros Hlook Hsplit.
  rewrite (routed_sink_writes _ _ _ _ _ _ _ _ _ _ Hlook Hsplit). reflexivity.
Qed.

(** Scenario B of the specification for the host and the key (the value is
    the payload as it arrived, see C1). *)
Lemma C9_empty_host_resolves_to_default_witness :
  hall_table !! "sensors/hall/light" = Some "light.hall::"
  /\ str_split "light.hall::" "::" = ["light.hall"; ""]
  /\ sink_writes (effects (on_message example_cfg sink_accepts hall_table "1700000000"
                             (mkMessage "sensors/hall/light" (VBytes (bytes_of "OFF")) 0))) =
     [([mkMetric "monitor01" "light.hall" "OFF" "1700000000"], "zabbix.example", 10051)].
Proof.
  split; [reflexivity|]. split; [reflexivity|].
  apply (C9_empty_host_resolves_to_default example_cfg sink_accepts hall_table
           "1700000000" "sensors/hall/light" (bytes_of "OFF") 0 "light.hall::" "light.hall");
    reflexivity.
Defined.

(** ** The connection callbacks *)

(** [cleanup(signum, frame)] with an integer [signum]: the offline marker,
    the disconnection, then [SystemExit(signum)]. *)
Lemma cleanup_unfold fqdn (n : Z) (frame : value) :
  cleanup fqdn (VInt n) frame = (cleanup_trace fqdn (VInt n), Raise (SystemExit n)).
Proof. reflexivity. Qed.

(** A refusal code other than 3: [cleanup()] is called without its two
    arguments, so the call raises [TypeError] and the body of [cleanup]
    does not run. *)
Lemma on_connect_fatal cfg fqdn (rc : Z) :
  rc <> 0 -> rc <> 3 ->
  on_connect cfg fqdn rc =
  ([Log DEBUG_LEVEL ("on_connect RC: " +:+ py_str (VInt rc)) []; refusal_record rc],
   Raise TypeError).
Proof.
  intros H0 H3. unfold on_connect, refusal_record.
  destruct (Z.eqb_spec rc 0) as [?|_]; [contradiction|].
  destruct (Z.eqb_spec rc 1) as [_|_]; [reflexivity|].
  destruct (Z.eqb_spec rc 2) as [_|_]; [reflexivity|].
  destruct (Z.eqb_spec rc 3) as [?|_]; [contradiction|].
  destruct (Z.eqb_spec rc 4) as [_|_]; [reflexivity|].
  destruct (Z.eqb_spec rc 5) as [_|_]; reflexivity.
Qed.

(** Refusal code 3: two records, a sleep of 30 seconds, and a normal
    return. *)
Lemma on_connect_transient cfg fqdn :
  on_connect cfg fqdn 3 =
  ([Log DEBUG_LEVEL "on_connect RC: 3" [];
    Log INFO_LEVEL "Connection refused - server unavailable" [];
    Log INFO_LEVEL "Retrying in 30 seconds" [];
    Sleep 30],
   Ok tt).
Proof. reflexivity. Qed.

(** An accepted connection: the online marker, then the subscription. *)
Lemma on_connect_accepted cfg fqdn :
  on_connect cfg fqdn 0 =
  ([Log DEBUG_LEVEL "on_connect RC: 0" [];
    Log INFO_LEVEL "Connected to %s:%s" [VStr (MQTT_HOST cfg); VInt (MQTT_PORT cfg)];
    Publish (PRESENCETOPIC fqdn) "1" true;
    Log DEBUG_LEVEL "Processing connection" [];
    Subscribe (MQTT_TOPIC cfg) 2],
   Ok tt).
Proof. reflexivity. Qed.

(** ** The network loop *)

Lemma loop_forever_cons cfg fqdn send mapdict ph ev rest :
  loop_forever cfg fqdn send mapdict ph (ev :: rest) =
  handle cfg fqdn send mapdict ph ev ≫= fun ph' =>
    match ph' with
    | Disconnected => mret Disconnected
    | _ => loop_forever cfg fqdn send mapdict ph' rest
    end.
Proof. reflexivity. Qed.

(** An event whose callback raises ends the loop there: the events that
    follow are not handled. *)
Lemma loop_forever_raise cfg fqdn send mapdict ph ev rest t e :
  handle cfg fqdn send mapdict ph ev = (t, Raise e) ->
  loop_forever cfg fqdn send mapdict ph (ev :: rest) = (t, Raise e).
Proof. intros H. rewrite loop_forever_cons, H. reflexivity. Qed.

(** An event handled without exception and without closing the session:
    the loop goes on with the next event. *)
Lemma loop_forever_step cfg fqdn send mapdict ph ev rest t ph' :
  handle cfg fqdn send mapdict ph ev = (t, Ok ph') ->
  ph' <> Disconnected ->
  loop_forever cfg fqdn send mapdict ph (ev :: rest) =
  (t ++ effects (loop_forever cfg fqdn send mapdict ph' rest),
   outcome (loop_forever cfg fqdn send mapdict ph' rest)).
Proof.
  intros H Hph. rewrite loop_forever_cons, H, bind_Ok.
  destruct ph'; try reflexivity. contradiction.
Qed.

(** A loop still running after some events handles the events that
    follow from the phase it is in. *)
Lemma loop_forever_app cfg fqdn send mapdict pre rest :
  forall ph t ph',
  loop_forever cfg fqdn send mapdict ph pre = (t, Ok ph') ->
  ph' <> Disconnected ->
  loop_forever cfg fqdn send mapdict ph (pre ++ rest) =
  (t ++ effects (loop_forever cfg fqdn send mapdict ph' rest),
   outcome (loop_forever cfg fqdn send mapdict ph' rest)).
Proof.
  induction pre as [|ev pre IH]; intros ph t ph' Hrun Hph.
  - cbn in Hrun. injection Hrun as <- <-. cbn [app]. apply M_eta.
  - rewrite loop_forever_cons in Hrun. cbn [app]. rewrite loop_forever_cons.
    destruct (handle cfg fqdn send mapdict ph ev) as [t1 [ph1|e]].
    + rewrite bind_Ok in Hrun. rewrite bind_Ok.
      destruct ph1;
        try (destruct (loop_forever cfg fqdn send mapdict _ pre) as [t2 r2] eqn:Hpre;
             cbn [effects outcome fst snd] in Hrun; injection Hrun as <- ->;
             rewrite (IH _ _ _ Hpre Hph); cbn [effects outcome fst snd];
             rewrite app_assoc; reflexivity).
      cbn in Hrun. injection Hrun as _ <-. contradiction.
    + rewrite bind_Raise in Hrun. discriminate Hrun.
Qed.

Lemma refusal_record_is_log (rc : Z) :
  exists lvl fmt args, refusal_record rc = Log lvl fmt args.
Proof.
  unfold refusal_record.
  repeat match goal with
         | |- context [if ?b then _ else _] => destruct b
         end; eauto.
Qed.

Lemma handle_fatal_refusal cfg fqdn send mapdict ph (rc : Z) :
  rc <> 0 -> rc <> 3 ->
  handle cfg fqdn send mapdict ph (EvConnack rc) =
  ([Log DEBUG_LEVEL ("on_connect RC: " +:+ py_str (VInt rc)) []; refusal_record rc],
   Raise TypeError).
Proof.
  intros H0 H3. unfold handle. rewrite (on_connect_fatal _ _ _ H0 H3). reflexivity.
Qed.

Lemma handle_transient_refusal cfg fqdn send mapdict ph :
  handle cfg fqdn send mapdict ph (EvConnack 3) =
  ([Log DEBUG_LEVEL "on_connect RC: 3" [];
    Log INFO_LEVEL "Connection refused - server unavailable" [];
    Log INFO_LEVEL "Retrying in 30 seconds" [];
    Sleep 30;
    Reconnect],
   Ok Connecting).
Proof. reflexivity. Qed.

Lemma handle_signal cfg fqdn send mapdict ph (s : signal) :
  handle cfg fqdn send mapdict ph (EvSignal s) =
  (cleanup_trace fqdn (VInt (signum_of s)), Raise (SystemExit (signum_of s))).
Proof. reflexivity. Qed.

(** ** Claims on the connection lifecycle *)

(** C5.  When the broker refuses the connection with a code other than 0
    and 3 (1, 2, 4, 5 or an unknown code), in whatever phase the loop is:
    [on_connect] writes its two log records and an exception leaves it, so
    the loop ends there.  Nothing is published, no connection is attempted
    or retried, the events that follow are not handled, and the process has
    ended.  (The exception is the [TypeError] of the call [cleanup()].) *)
Theorem C5_fatal_refusal_terminates cfg fqdn send mapdict ph (rc : Z) rest :
  rc <> 0 -> rc <> 3 ->
  effects (loop_forever cfg fqdn send mapdict ph (EvConnack rc :: rest)) =
    [Log DEBUG_LEVEL ("on_connect RC: " +:+ py_str (VInt rc)) []; refusal_record rc]
  /\ existsb is_publish_or_connect
       (effects (loop_forever cfg fqdn send mapdict ph (EvConnack rc :: rest))) = false
  /\ session_phase
       (outcome (loop_forever cfg fqdn send mapdict ph (EvConnack rc :: rest))) = Terminated.
Proof.
  intros H0 H3.
  rewrite (loop_forever_raise _ _ _ _ _ _ rest _ _
             (handle_fatal_refusal cfg fqdn send mapdict ph rc H0 H3)).
  cbn [effects outcome fst snd session_phase].
  split; [reflexivity|]. split; [|reflexivity].
  destruct (refusal_record_is_log rc) as (lvl & fmt & args & ->). reflexivity.
Qed.

(** Bad credentials (code 4) met while connecting; the subscription
    acknowledgement and the message that follow are never handled. *)
Lemma C5_fatal_refusal_terminates_witness :
  4 <> 0 /\ 4 <> 3
  /\ effects (loop_forever example_cfg example_fqdn sink_accepts kitchen_table Connecting
             [EvConnack 4; EvConnack 0;
              EvMessage (mkMessage "sensors/kitchen/power" (VBytes (bytes_of "7")) 0)
                "1700000000"]) =
    [Log DEBUG_LEVEL "on_connect RC: 4" [];
     Log INFO_LEVEL "Connection refused - bad user name or password" []]
  /\ session_phase
       (outcome (loop_forever example_cfg example_fqdn sink_accepts kitchen_table Connecting
             [EvConnack 4; EvConnack 0;
              EvMessage (mkMessage "sensors/kitchen/power" (VBytes (bytes_of "7")) 0)
                "1700000000"])) = Terminated.
Proof.
  split; [lia|]. split; [lia|].
  pose proof (C5_fatal_refusal_terminates example_cfg example_fqdn sink_accepts
                kitchen_table Connecting 4
                [EvConnack 0;
                 EvMessage (mkMessage "sensors/kitchen/power" (VBytes (bytes_of "7")) 0)
                   "1700000000"]) as H.
  destruct H as (Ht & _ & Hp); [lia | lia |].
  split; [exact Ht | exact Hp].
Defined.

(** C6.  When the broker refuses the connection with code 3 (server
    unavailable): [on_connect] writes its records, sleeps 30 seconds and
    returns normally; the client library then connects again; the session
    is in phase [Connecting], not [Terminated], and the loop goes on with
    the events that follow. *)
Theorem C6_transient_refusal_retries cfg fqdn send mapdict ph rest :
  handle cfg fqdn send mapdict ph (EvConnack 3) =
    ([Log DEBUG_LEVEL "on_connect RC: 3" [];
      Log INFO_LEVEL "Connection refused - server unavailable" [];
      Log INFO_LEVEL "Retrying in 30 seconds" [];
      Sleep 30;
      Reconnect],
     Ok Connecting)
  /\ session_phase
       (outcome (loop_forever cfg fqdn send mapdict ph [EvConnack 3])) = Connecting
  /\ loop_forever cfg fqdn send mapdict ph (EvConnack 3 :: rest) =
     ([Log DEBUG_LEVEL "on_connect RC: 3" [];
       Log INFO_LEVEL "Connection refused - server unavailable" [];
       Log INFO_LEVEL "Retrying in 30 seconds" [];
       Sleep 30;
       Reconnect] ++ effects (loop_forever cfg fqdn send mapdict Connecting rest),
      outcome (loop_forever cfg fqdn send mapdict Connecting rest)).
Proof.
  split; [reflexivity|]. split; [reflexivity|].
  apply loop_forever_step; [reflexivity | discriminate].
Qed.

(** ** What the script does to the outside world *)

Lemma effects_unpack2 (l : list string) : effects (unpack2 l) = [].
Proof. destruct l as [|a [|b [|c l]]]; reflexivity. Qed.

Lemma effects_decode_utf8 (v : value) : effects (decode_utf8 v) = [].
Proof.
  destruct v; try reflexivity. unfold decode_utf8, bytes_decode_utf8.
  destruct (valid_utf8 b); reflexivity.
Qed.

Lemma effects_dict_of_rows (reader : list (list string)) (acc : gmap string string) :
  effects (dict_of_rows reader acc) = [].
Proof.
  revert acc. induction reader as [|rows rest IH]; intros acc; [reflexivity|].
  cbn [dict_of_rows]. rewrite effects_bind.
  destruct rows as [|r0 [|r1 more]]; try reflexivity.
  cbn [row_item outcome effects mret M_ret ret fst snd app]. apply IH.
Qed.

Lemma effects_KeyMap (reader : list (list string)) :
  effects (KeyMap reader) = [Log DEBUG_LEVEL "Loading map" []].
Proof.
  unfold KeyMap. rewrite effects_bind. cbn [logging_debug emit effects outcome fst snd].
  rewrite effects_dict_of_rows. reflexivity.
Qed.

Lemma effects_cleanup fqdn (signum frame : value) :
  effects (cleanup fqdn signum frame) = cleanup_trace fqdn signum.
Proof. destruct signum; reflexivity. Qed.

Section Invariant.

Variable cfg : config.
Variable fqdn : string.
Variable send : list Metric -> string -> Z -> result bool.

Local Abbreviation ok := (script_effect cfg fqdn).

Lemma cleanup_ok (signum frame : value) :
  Forall ok (effects (cleanup fqdn signum frame)).
Proof.
  rewrite effects_cleanup. unfold cleanup_trace.
  concrete_ok.
Qed.

Lemma on_connect_ok (rc : Z) : Forall ok (effects (on_connect cfg fqdn rc)).
Proof.
  destruct (Z.eq_dec rc 0) as [->|H0].
  { rewrite on_connect_accepted. concrete_ok. }
  destruct (Z.eq_dec rc 3) as [->|H3].
  { rewrite on_connect_transient. concrete_ok. }
  rewrite (on_connect_fatal _ _ _ H0 H3).
  destruct (refusal_record_is_log rc) as (lvl & fmt & args & ->).
  concrete_ok.
Qed.

Lemma on_disconnect_ok (rc : Z) : Forall ok (effects (on_disconnect rc)).
Proof.
  unfold on_disconnect. destruct (rc =? 0); concrete_ok.
Qed.

Lemma process_message_ok mapdict now msg :
  Forall ok (effects (process_message cfg send mapdict now msg)).
Proof.
  unfold process_message.
  apply Forall_bind; [apply Forall_emit; exact I | intros _].
  destruct (mapdict !! topic msg) as [raw|]; [|apply Forall_emit; exact I].
  apply Forall_bind; [rewrite effects_unpack2; constructor | intros [k h]].
  apply Forall_bind; [apply Forall_emit; exact I | intros _].
  apply Forall_bind; [rewrite effects_decode_utf8; constructor | intros payload_str].
  repeat (apply Forall_bind; [apply Forall_emit; exact I | intros _]).
  apply Forall_bind; [|intros _; constructor].
  unfold call_send_to_zabbix. concrete_ok.
Qed.

Lemma on_message_ok mapdict now msg :
  Forall ok (effects (on_message cfg send mapdict now msg)).
Proof.
  unfold on_message. apply Forall_try_except_Exception.
  - apply Forall_bind; [apply Forall_emit; exact I | intros _].
    apply process_message_ok.
  - intros e. apply Forall_bind; [apply Forall_emit; exact I | intros _]. constructor.
Qed.

Lemma handle_ok mapdict ph ev :
  Forall ok (effects (handle cfg fqdn send mapdict ph ev)).
Proof.
  destruct ev; unfold handle.
  - apply Forall_bind; [apply on_connect_ok | intros _].
    destruct (rc =? 0); [constructor|].
    apply Forall_bind; [apply Forall_emit; exact I | intros _; constructor].
  - apply Forall_bind; [apply on_disconnect_ok | intros _].
    destruct (rc =? 0); [constructor|].
    apply Forall_bind; [apply Forall_emit; exact I | intros _; constructor].
  - apply Forall_bind; [apply on_message_ok | intros _; constructor].
  - apply Forall_bind; [apply Forall_emit; exact I | intros _; constructor].
  - apply Forall_bind; [apply Forall_emit; exact I | intros _; constructor].
  - apply Forall_bind; [apply Forall_emit; exact I | intros _; constructor].
  - apply Forall_bind; [|intros _; constructor].
    destruct (DEBUG cfg); [apply Forall_emit; exact I | constructor].
  - apply Forall_bind; [apply cleanup_ok | intros _; constructor].
Qed.

Lemma loop_forever_ok mapdict events :
  forall ph, Forall ok (effects (loop_forever cfg fqdn send mapdict ph events)).
Proof.
  induction events as [|ev rest IH]; intros ph; [constructor|].
  rewrite loop_forever_cons. apply Forall_bind; [apply handle_ok|].
  intros ph'. destruct ph'; try apply IH. constructor.
Qed.

Lemma connect_body_ok (answer : result Z) (again : M unit) :
  Forall ok (effects again) ->
  Forall ok (effects (connect_body cfg fqdn answer again)).
Proof.
  intros Hagain. unfold connect_body.
  apply Forall_bind; [apply Forall_emit; exact I | intros _].
  apply Forall_bind; [apply Forall_emit; simpl; auto | intros _].
  apply Forall_bind; [concrete_ok | intros result].
  apply Forall_bind.
  { destruct (bool_decide (result <> 0)); [|constructor].
    apply Forall_bind; [apply Forall_emit; exact I | intros _].
    apply Forall_bind; [apply Forall_emit; simpl; auto | intros _].
    exact Hagain. }
  intros _.
  repeat (apply Forall_bind; [apply Forall_emit; exact I | intros _]).
  destruct (DEBUG cfg); [apply Forall_emit; exact I | constructor].
Qed.

Lemma connect_ok (answers : list (result Z)) :
  Forall ok (effects (connect cfg fqdn answers)).
Proof.
  induction answers as [|a rest IH]; cbn [connect]; apply connect_body_ok;
    [constructor | exact IH].
Qed.

Lemma startup_ok pid reader answers :
  Forall ok (effects (startup cfg fqdn pid reader answers)).
Proof.
  unfold startup.
  apply Forall_bind; [apply Forall_emit; reflexivity | intros _].
  repeat (apply Forall_bind; [apply Forall_emit; exact I | intros _]).
  apply Forall_bind; [rewrite effects_KeyMap; concrete_ok | intros mapdict].
  apply Forall_bind; [apply Forall_emit; simpl; auto | intros _].
  apply Forall_bind; [apply Forall_emit; simpl; auto | intros _].
  apply Forall_bind; [apply connect_ok | intros _; constructor].
Qed.

(** Every effect of a run of the script, whatever the key file, the
    answers of the broker and the events, is one [script_effect] allows. *)
Lemma main_ok pid reader answers events :
  Forall ok (effects (main cfg fqdn send pid reader answers events)).
Proof.
  unfold main. apply Forall_bind; [apply startup_ok | intros mapdict].
  apply Forall_try_except_KeyboardInterrupt; [apply loop_forever_ok|].
  apply Forall_bind; [apply Forall_emit; exact I | intros _; constructor].
Qed.

End Invariant.

(** ** The script as a whole *)

(** The trace of the start: the client, the three opening records, the
    load of the table and, when the load succeeds, the two signal handlers
    and [connect()]. *)
Lemma startup_effects cfg fqdn pid reader answers :
  effects (startup cfg fqdn pid reader answers) =
  [NewClient "client_id";
   Log INFO_LEVEL "Starting mqtt-zabbix" [];
   Log INFO_LEVEL "INFO MODE" [];
   Log DEBUG_LEVEL "DEBUG MODE" [];
   Log DEBUG_LEVEL "Loading map" []] ++
  match outcome (KeyMap reader) with
  | Ok _ => [SetSignal 15; SetSignal 2] ++ effects (connect cfg fqdn answers)
  | Raise _ => []
  end.
Proof.
  unfold startup. rewrite !effects_bind.
  cbn [emit logging_info logging_debug effects outcome fst snd app].
  rewrite effects_KeyMap. cbn [app]. do 5 f_equal.
  destruct (outcome (KeyMap reader)); [|reflexivity].
  rewrite !effects_bind. cbn [emit effects outcome fst snd app signum_of].
  do 2 f_equal. destruct (outcome (connect cfg fqdn answers)); apply app_nil_r.
Qed.

(** [connect()] registers the will before it calls [mqttc.connect]. *)
Lemma connect_starts cfg fqdn answers :
  exists t,
    effects (connect cfg fqdn answers) =
    Log DEBUG_LEVEL "Connecting to %s:%s" [VStr (MQTT_HOST cfg); VInt (MQTT_PORT cfg)]
    :: WillSet (PRESENCETOPIC fqdn) "0" 0 true
    :: Connect (MQTT_HOST cfg) (MQTT_PORT cfg) 60
    :: t.
Proof.
  destruct answers as [|a rest]; cbn [connect]; unfold connect_body;
    rewrite !effects_bind;
    cbn [emit logging_debug effects outcome fst snd app];
    eexists; reflexivity.
Qed.

Lemma main_effects cfg fqdn send pid reader answers events :
  exists t,
    effects (main cfg fqdn send pid reader answers events) =
    effects (startup cfg fqdn pid reader answers) ++ t.
Proof.
  unfold main. rewrite effects_bind. eexists; reflexivity.
Qed.

(** A run whose loop is still going after the events [pre] and whose next
    events make the loop raise anything but [KeyboardInterrupt]: the
    exception leaves the script. *)
Lemma main_raise_after cfg fqdn send pid reader answers pre rest t0 ph :
  main cfg fqdn send pid reader answers pre = (t0, Ok ph) ->
  ph <> Disconnected ->
  exists mapdict,
    forall t e,
      loop_forever cfg fqdn send mapdict ph rest = (t, Raise e) ->
      e <> KeyboardInterrupt ->
      main cfg fqdn send pid reader answers (pre ++ rest) = (t0 ++ t, Raise e).
Proof.
  unfold main. intros Hrun Hph.
  destruct (startup cfg fqdn pid reader answers) as [ts [mapdict|e0]];
    [|rewrite bind_Raise in Hrun; discriminate Hrun].
  rewrite bind_Ok in Hrun. exists mapdict. intros t e Hloop Hne.
  rewrite bind_Ok.
  destruct (loop_forever cfg fqdn send mapdict Connecting pre) as [tl [phl|el]] eqn:Hpre.
  - cbn in Hrun. injection Hrun as <- ->.
    rewrite (loop_forever_app _ _ _ _ _ _ _ _ _ Hpre Hph), Hloop.
    cbn [effects outcome fst snd].
    destruct e; try (exfalso; apply Hne; reflexivity);
      cbn [try_except_KeyboardInterrupt effects outcome fst snd];
      rewrite app_assoc; reflexivity.
  - destruct el; cbn in Hrun; discriminate Hrun.
Qed.

(** When the key file has a record that is too short the script ends
    before any signal handler is set or any connection is attempted. *)
Lemma main_load_error cfg fqdn send pid reader answers events e :
  outcome (KeyMap reader) = Raise e ->
  main cfg fqdn send pid reader answers events =
  ([NewClient "client_id";
    Log INFO_LEVEL "Starting mqtt-zabbix" [];
    Log INFO_LEVEL "INFO MODE" [];
    Log DEBUG_LEVEL "DEBUG MODE" [];
    Log DEBUG_LEVEL "Loading map" []],
   Raise e).
Proof.
  intros Hload. unfold main, startup.
  rewrite (M_eta (KeyMap reader)), effects_KeyMap, Hload. reflexivity.
Qed.

Lemma will_precedes_connect_spec (t1 : trace) :
  forall t h p k t2,
  will_precedes_connect t = true ->
  t = t1 ++ Connect h p k :: t2 ->
  exists tp pl q r, WillSet tp pl q r ∈ t1.
Proof.
  induction t1 as [|e t1 IH]; intros t h p k t2 Hwill ->.
  - discriminate Hwill.
  - destruct e;
      try (destruct (IH (t1 ++ Connect h p k :: t2) h p k t2 Hwill eq_refl)
             as (tp & pl & q & r & Hin);
           exists tp, pl, q, r; apply list_elem_of_further; exact Hin).
    + do 4 eexists. apply list_elem_of_here.
    + discriminate Hwill.
Qed.

Lemma main_will_precedes_connect cfg fqdn send pid reader answers events :
  will_precedes_connect (effects (main cfg fqdn send pid reader answers events)) = true.
Proof.
  destruct (outcome (KeyMap reader)) as [mapdict|e] eqn:Hload.
  - destruct (main_effects cfg fqdn send pid reader answers events) as [t ->].
    rewrite startup_effects, Hload.
    destruct (connect_starts cfg fqdn answers) as [t' ->]. reflexivity.
  - rewrite (main_load_error _ _ _ _ _ _ _ _ Hload). reflexivity.
Qed.

(** ** Claims on the exit status, the presence topic and the client
    identifier *)

(** C7, as stated, fails: a run that connects and then receives SIGTERM
    ends with [SystemExit(15)], that is with exit status 15, not 0. *)
Lemma C7_signal_exit_status_is_the_signal_number :
  outcome (main example_cfg example_fqdn sink_accepts 4242 [] []
             [EvConnack 0; EvSignal SIGTERM]) = Raise (SystemExit 15)
  /\ exit_status (outcome (main example_cfg example_fqdn sink_accepts 4242 [] []
                             [EvConnack 0; EvSignal SIGTERM])) = Some 15.
Proof. split; vm_compute; reflexivity. Qed.

(** C7, amended.  In a run whose loop is going: a SIGTERM or SIGINT makes
    [cleanup] publish the offline marker, close the session and exit with
    the number of the signal as status (15 or 2, never 0); a connection
    refusal with a code other than 0 and 3 ends the process with status 1.
    The two paths are told apart by the status, and neither status is
    0. *)
Theorem C7_exit_status_by_path cfg fqdn send pid reader answers pre rest t0 ph :
  main cfg fqdn send pid reader answers pre = (t0, Ok ph) ->
  ph <> Disconnected ->
  (forall s : signal,
     main cfg fqdn send pid reader answers (pre ++ EvSignal s :: rest) =
       (t0 ++ cleanup_trace fqdn (VInt (signum_of s)), Raise (SystemExit (signum_of s)))
     /\ exit_status
          (outcome (main cfg fqdn send pid reader answers (pre ++ EvSignal s :: rest))) =
        Some (signum_of s)
     /\ signum_of s <> 0 /\ signum_of s <> 1)
  /\ (forall rc : Z, rc <> 0 -> rc <> 3 ->
        exit_status
          (outcome (main cfg fqdn send pid reader answers (pre ++ EvConnack rc :: rest))) =
        Some 1).
Proof.
  intros Hrun Hph. split.
  - intros s.
    destruct (main_raise_after cfg fqdn send pid reader answers pre
                (EvSignal s :: rest) t0 ph Hrun Hph) as [mapdict Hafter].
    rewrite (Hafter _ _ (loop_forever_raise _ _ _ _ _ _ rest _ _
                           (handle_signal cfg fqdn send mapdict ph s)));
      [|discriminate].
    split; [reflexivity|]. destruct s; repeat split; discriminate.
  - intros rc H0 H3.
    destruct (main_raise_after cfg fqdn send pid reader answers pre
                (EvConnack rc :: rest) t0 ph Hrun Hph) as [mapdict Hafter].
    rewrite (Hafter _ _ (loop_forever_raise _ _ _ _ _ _ rest _ _
                           (handle_fatal_refusal cfg fqdn send mapdict ph rc H0 H3)));
      [|discriminate].
    reflexivity.
Qed.

Lemma C7_exit_status_by_path_witness :
  outcome (main example_cfg example_fqdn sink_accepts 4242 [] [] [EvConnack 0]) =
    Ok Connected
  /\ Connected <> Disconnected
  /\ exit_status (outcome (main example_cfg example_fqdn sink_accepts 4242 [] []
                             ([EvConnack 0] ++ [EvSignal SIGINT]))) = Some 2
  /\ exit_status (outcome (main example_cfg example_fqdn sink_accepts 4242 [] []
                             ([EvConnack 0] ++ [EvConnack 5]))) = Some 1.
Proof.
  split; [vm_compute; reflexivity|]. split; [discriminate|].
  pose proof (C7_exit_status_by_path example_cfg example_fqdn sink_accepts 4242 [] []
                [EvConnack 0] []
                (effects (main example_cfg example_fqdn sink_accepts 4242 [] [] [EvConnack 0]))
                Connected) as H.
  destruct H as [Hsig Hfatal]; [vm_compute; reflexivity | discriminate |].
  split.
  - exact (proj1 (proj2 (Hsig SIGINT))).
  - apply Hfatal; lia.
Defined.

(** C8.  In every run of the script, whatever the key file, the broker's
    answers and the events: every publication goes to the presence topic
    [clients/<fqdn>/mqtt-zabbix/state] with payload ["1"] or ["0"] and is
    retained; every will registered is the retained ["0"] on that topic; a
    will is registered before the first call of [mqttc.connect].
    [on_connect] publishes the retained ["1"] when the connection is
    accepted and [cleanup] publishes the retained ["0"]. *)
Theorem C8_presence_publications_retained cfg fqdn send pid reader answers events :
  PRESENCETOPIC fqdn = "clients/" +:+ fqdn +:+ "/" +:+ "mqtt-zabbix" +:+ "/state"
  /\ (forall tp pl r,
        Publish tp pl r ∈ effects (main cfg fqdn send pid reader answers events) ->
        tp = PRESENCETOPIC fqdn /\ (pl = "1" \/ pl = "0") /\ r = true)
  /\ (forall tp pl q r,
        WillSet tp pl q r ∈ effects (main cfg fqdn send pid reader answers events) ->
        tp = PRESENCETOPIC fqdn /\ pl = "0" /\ r = true)
  /\ (forall t1 h p k t2,
        effects (main cfg fqdn send pid reader answers events) = t1 ++ Connect h p k :: t2 ->
        WillSet (PRESENCETOPIC fqdn) "0" 0 true ∈ t1)
  /\ Publish (PRESENCETOPIC fqdn) "1" true ∈ effects (on_connect cfg fqdn 0)
  /\ (forall signum frame,
        Publish (PRESENCETOPIC fqdn) "0" true ∈ effects (cleanup fqdn signum frame)).
Proof.
  pose proof (main_ok cfg fqdn send pid reader answers events) as Hok.
  rewrite Forall_forall in Hok.
  split; [reflexivity|]. split; [|split; [|split; [|split]]].
  - intros tp pl r Hin. exact (Hok _ Hin).
  - intros tp pl q r Hin. destruct (Hok _ Hin) as (-> & -> & _ & ->). auto.
  - intros t1 h p k t2 Heq.
    destruct (will_precedes_connect_spec t1 _ h p k t2
                (main_will_precedes_connect cfg fqdn send pid reader answers events) Heq)
      as (tp & pl & q & r & Hin).
    assert (Hmain : WillSet tp pl q r ∈
                    effects (main cfg fqdn send pid reader answers events)).
    { rewrite Heq. apply elem_of_app. left. exact Hin. }
    destruct (Hok _ Hmain) as (-> & -> & -> & ->). exact Hin.
  - rewrite on_connect_accepted. cbn [effects fst].
    do 2 apply list_elem_of_further. apply list_elem_of_here.
  - intros signum frame. rewrite effects_cleanup. unfold cleanup_trace.
    apply list_elem_of_further. apply list_elem_of_here.
Qed.

(** The publications and the will of a run that connects at the second
    attempt, is accepted and is then stopped by SIGTERM. *)
Lemma C8_presence_publications_retained_witness :
  List.filter is_session_call
    (effects (main example_cfg example_fqdn sink_accepts 4242 [] [Ok 5]
                [EvConnack 0; EvSignal SIGTERM])) =
    [WillSet "clients/bridge.example/mqtt-zabbix/state" "0" 0 true;
     Connect "localhost" 1883 60;
     WillSet "clients/bridge.example/mqtt-zabbix/state" "0" 0 true;
     Connect "localhost" 1883 60;
     Publish "clients/bridge.example/mqtt-zabbix/state" "1" true;
     Publish "clients/bridge.example/mqtt-zabbix/state" "0" true]
  /\ (forall tp pl r,
        Publish tp pl r ∈ effects (main example_cfg example_fqdn sink_accepts 4242 [] [Ok 5]
                                     [EvConnack 0; EvSignal SIGTERM]) ->
        tp = PRESENCETOPIC example_fqdn /\ (pl = "1" \/ pl = "0") /\ r = true).
Proof.
  split; [vm_compute; reflexivity|].
  exact (proj1 (proj2 (C8_presence_publications_retained example_cfg example_fqdn
                         sink_accepts 4242 [] [Ok 5] [EvConnack 0; EvSignal SIGTERM]))).
Defined.

(** C10.  In every run the client object is built first, with the literal
    identifier ["client_id"], and nowhere else; the identifier does not
    depend on the process id [pid], so two instances of the script present
    the same one. *)
Theorem C10_client_identifier_is_a_literal cfg fqdn send pid reader answers events :
  head (effects (main cfg fqdn send pid reader answers events)) =
    Some (NewClient "client_id")
  /\ (forall id,
        NewClient id ∈ effects (main cfg fqdn send pid reader answers events) ->
        id = "client_id").
Proof.
  split.
  - destruct (main_effects cfg fqdn send pid reader answers events) as [t ->].
    rewrite startup_effects. reflexivity.
  - intros id Hin.
    pose proof (main_ok cfg fqdn send pid reader answers events) as Hok.
    rewrite Forall_forall in Hok. exact (Hok _ Hin).
Qed.

(** The variable [client_id] of the script does follow the process id; it
    is the one thing the client is not built with. *)
Lemma client_id_follows_pid :
  client_id 4242 = "mqtt-zabbix_4242"
  /\ client_id 4243 = "mqtt-zabbix_4243"
  /\ head (effects (main example_cfg example_fqdn sink_accepts 4242 [] [] [])) =
     head (effects (main example_cfg example_fqdn sink_accepts 4243 [] [] [])).
Proof. repeat split; vm_compute; reflexivity. Qed.

(** * Further properties of the script *)

(** ** The message pipeline, for any payload object *)

(** Everything [process_message] does for a routed message whose mapping
    value splits in two, whatever object [msg.payload] is. *)
Lemma process_message_any cfg send mapdict now msg raw k h :
  mapdict !! topic msg = Some raw ->
  str_split raw "::" = [k; h] ->
  process_message cfg send mapdict now msg =
  ([Log DEBUG_LEVEL ("Processing : " +:+ topic msg) [];
    Log INFO_LEVEL "Sending %s %s to Zabbix to host %s key %s"
      [VStr (topic msg); normalised_payload (payload msg);
       VStr (resolved_host cfg h); VStr k]] ++
   match outcome (decode_utf8 (normalised_payload (payload msg))) with
   | Ok s => [Print ""; Print "<class 'str'>"; Print "";
              Send [mkMetric (resolved_host cfg h) k s now] (ZBXSERVER cfg) (ZBXPORT cfg)]
   | Raise _ => []
   end,
   match outcome (decode_utf8 (normalised_payload (payload msg))) with
   | Ok s => match send [mkMetric (resolved_host cfg h) k s now]
                     (ZBXSERVER cfg) (ZBXPORT cfg) with
             | Ok _ => Ok tt
             | Raise e => Raise e
             end
   | Raise e => Raise e
   end).
Proof.
  intros Hlook Hsplit. unfold process_message, resolved_host, normalised_payload.
  rewrite Hlook, Hsplit. destruct msg as [tp pl q].
  cbv beta iota zeta delta [topic payload set_payload unpack2].
  destruct (py_eq pl (VStr "ON")) eqn:HON.
  - cbv beta iota zeta delta [topic payload py_eq decode_utf8]. reflexivity.
  - cbv beta iota zeta delta [topic payload].
    destruct (py_eq pl (VStr "OFF")) eqn:HOFF.
    + cbv beta iota zeta delta [topic payload py_eq decode_utf8]. reflexivity.
    + cbv beta iota zeta delta [topic payload].
      pose proof (effects_decode_utf8 pl) as Heff.
      destruct (decode_utf8 pl) as [td [s|e]]; cbn [effects fst] in Heff; subst td.
      * cbv beta iota zeta delta
          [mbind M_bind bind mret M_ret ret logging_debug logging_info emit py_str
           call_send_to_zabbix outcome snd].
        destruct (send _ _ _); reflexivity.
      * reflexivity.
Qed.

Lemma prefix_sep_before (c : ascii) (a rest : string) :
  String.prefix "::" (String c (a +:+ "::" +:+ rest)) =
  String.prefix "::" (String c (a +:+ ":")).
Proof.
  destruct a as [|d a].
  - change ("" +:+ "::" +:+ rest) with (String ":" (String ":" rest)).
    change ("" +:+ ":") with ":".
    cbn [String.prefix]. destruct (Ascii.ascii_dec ":" c); reflexivity.
  - change (String d a +:+ "::" +:+ rest) with (String d (a +:+ "::" +:+ rest)).
    change (String d a +:+ ":") with (String d (a +:+ ":")).
    cbn [String.prefix]. destruct (Ascii.ascii_dec ":" c); [|reflexivity].
    destruct (Ascii.ascii_dec ":" d); [|reflexivity].
    destruct (a +:+ "::" +:+ rest), (a +:+ ":"); reflexivity.
Qed.

Lemma prefix_sep_here (rest : string) :
  String.prefix "::" (String ":" (String ":" rest)) = true.
Proof. destruct rest; reflexivity. Qed.

(** The first separator of a value is where the split cuts first, when
    the text before it neither holds a separator nor, with its last
    character, starts one. *)
Lemma split_go_first (a rest : string) :
  forall cur,
  occurs "::" (a +:+ ":") = false ->
  split_go "::" O cur (a +:+ "::" +:+ rest) = (cur +:+ a) :: split_go "::" O "" rest.
Proof.
  induction a as [|c a IH]; intros cur Hocc.
  - change ("" +:+ "::" +:+ rest) with (String ":" (String ":" rest)).
    rewrite append_empty_r. cbn [split_go]. rewrite prefix_sep_here. reflexivity.
  - change (String c a +:+ ":") with (String c (a +:+ ":")) in Hocc.
    cbn [occurs] in Hocc. apply orb_false_iff in Hocc as [Hpre Hrest].
    change (String c a +:+ "::" +:+ rest) with (String c (a +:+ "::" +:+ rest)).
    cbn [split_go]. rewrite prefix_sep_before, Hpre.
    rewrite (IH _ Hrest), append_assoc_char. reflexivity.
Qed.

(** Joining a key and a host with the separator and splitting again gives
    them back. *)
Lemma str_split_key_host (k h : string) :
  occurs "::" (k +:+ ":") = false ->
  occurs "::" h = false ->
  str_split (k +:+ "::" +:+ h) "::" = [k; h].
Proof.
  intros Hk Hh. unfold str_split.
  rewrite (split_go_first _ _ _ Hk), (split_go_no_occurrence _ _ _ Hh). reflexivity.
Qed.

Lemma str_split_three (k m h : string) :
  occurs "::" (k +:+ ":") = false ->
  occurs "::" (m +:+ ":") = false ->
  occurs "::" h = false ->
  str_split (k +:+ "::" +:+ m +:+ "::" +:+ h) "::" = [k; m; h].
Proof.
  intros Hk Hm Hh. unfold str_split.
  rewrite (split_go_first _ _ _ Hk), (split_go_first _ _ _ Hm),
    (split_go_no_occurrence _ _ _ Hh). reflexivity.
Qed.

Lemma valid_utf8_ascii (b : list byte) :
  Forall (fun x => byte_val x < 128) b -> valid_utf8 b = true.
Proof.
  induction 1 as [|x b Hx _ IH]; [reflexivity|].
  cbn [valid_utf8]. apply Z.ltb_lt in Hx. rewrite Hx. exact IH.
Qed.

(** X1.  A mapping value written [KEY::HOST], with a key and a host that
    hold no separator (and a key that does not end with a colon), routes a
    well-formed UTF-8 payload to the sink as one metric: host [HOST], or
    [KEYHOST] when [HOST] is empty, key [KEY], the payload as its value, the
    clock read during the call, sent to the configured server and port. *)
Theorem X1_key_host_value_routes cfg send mapdict now tp b q k h :
  mapdict !! tp = Some (k +:+ "::" +:+ h) ->
  occurs "::" (k +:+ ":") = false ->
  occurs "::" h = false ->
  valid_utf8 b = true ->
  sink_writes (effects (on_message cfg send mapdict now (mkMessage tp (VBytes b) q))) =
  [([mkMetric (if bool_decide (h = "") then KEYHOST cfg else h) k
       (String.string_of_list_byte b) now],
    ZBXSERVER cfg, ZBXPORT cfg)].
Proof.
  intros Hlook Hk Hh Hvalid.
  rewrite (routed_sink_writes _ _ _ _ _ _ _ _ _ _ Hlook (str_split_key_host _ _ Hk Hh)).
  rewrite Hvalid. reflexivity.
Qed.

Lemma X1_key_host_value_routes_witness :
  kitchen_table !! "sensors/kitchen/power" = Some ("power.kitchen" +:+ "::" +:+ "host1")
  /\ occurs "::" ("power.kitchen" +:+ ":") = false
  /\ occurs "::" "host1" = false
  /\ valid_utf8 (bytes_of "230.4") = true
  /\ sink_writes (effects (on_message example_cfg sink_accepts kitchen_table "1700000000"
                             (mkMessage "sensors/kitchen/power" (VBytes (bytes_of "230.4")) 1))) =
     [([mkMetric "host1" "power.kitchen" "230.4" "1700000000"], "zabbix.example", 10051)].
Proof.
  split; [reflexivity|]. split; [reflexivity|]. split; [reflexivity|].
  split; [reflexivity|].
  apply (X1_key_host_value_routes example_cfg sink_accepts kitchen_table "1700000000"
           "sensors/kitchen/power" (bytes_of "230.4") 1 "power.kitchen" "host1");
    reflexivity.
Defined.

(** X2.  A mapping value with two separators, [KEY::MID::HOST], is not
    usable: every message on its topic makes [process_message] raise
    [ValueError] (three values for two names) after its first debug record,
    and nothing is sent. *)
Theorem X2_two_separators_raise cfg send mapdict now msg k m h :
  mapdict !! topic msg = Some (k +:+ "::" +:+ m +:+ "::" +:+ h) ->
  occurs "::" (k +:+ ":") = false ->
  occurs "::" (m +:+ ":") = false ->
  occurs "::" h = false ->
  process_message cfg send mapdict now msg =
  ([Log DEBUG_LEVEL ("Processing : " +:+ topic msg) []], Raise ValueError).
Proof.
  intros Hlook Hk Hm Hh.
  apply (process_message_bad_value _ _ _ _ _ _ Hlook).
  rewrite (str_split_three _ _ _ Hk Hm Hh). simpl. lia.
Qed.

Lemma X2_two_separators_raise_witness :
  ({[ "sensors/door" := "door::state::host1" ]} : gmap string string) !! "sensors/door" =
    Some ("door" +:+ "::" +:+ "state" +:+ "::" +:+ "host1")
  /\ process_message example_cfg sink_accepts {[ "sensors/door" := "door::state::host1" ]}
       "1700000000" (mkMessage "sensors/door" (VBytes (bytes_of "open")) 0) =
     ([Log DEBUG_LEVEL "Processing : sensors/door" []], Raise ValueError).
Proof.
  split; [reflexivity|].
  apply (X2_two_separators_raise example_cfg sink_accepts
           {[ "sensors/door" := "door::state::host1" ]} "1700000000"
           (mkMessage "sensors/door" (VBytes (bytes_of "open")) 0) "door" "state" "host1");
    reflexivity.
Defined.

(** X3.  A host given in the mapping value is used as it is: for a routed
    topic whose value splits into a key and a non-empty host, the metric
    carries that host, whatever [KEYHOST] is. *)
Theorem X3_explicit_host_is_kept cfg send mapdict now tp b q raw k h :
  mapdict !! tp = Some raw ->
  str_split raw "::" = [k; h] ->
  h <> "" ->
  valid_utf8 b = true ->
  sink_writes (effects (on_message cfg send mapdict now (mkMessage tp (VBytes b) q))) =
  [([mkMetric h k (String.string_of_list_byte b) now], ZBXSERVER cfg, ZBXPORT cfg)].
Proof.
  intros Hlook Hsplit Hh Hvalid.
  rewrite (routed_sink_writes _ _ _ _ _ _ _ _ _ _ Hlook Hsplit), Hvalid.
  unfold resolved_host. rewrite bool_decide_eq_false_2; [reflexivity | exact Hh].
Qed.

Lemma X3_explicit_host_is_kept_witness :
  kitchen_table !! "sensors/kitchen/power" = Some "power.kitchen::host1"
  /\ str_split "power.kitchen::host1" "::" = ["power.kitchen"; "host1"]
  /\ "host1" <> ""
  /\ sink_writes (effects (on_message example_cfg sink_accepts kitchen_table "1700000000"
                             (mkMessage "sensors/kitchen/power" (VBytes (bytes_of "12")) 0))) =
     [([mkMetric "host1" "power.kitchen" "12" "1700000000"], "zabbix.example", 10051)].
Proof.
  split; [reflexivity|]. split; [reflexivity|]. split; [discriminate|].
  apply (X3_explicit_host_is_kept example_cfg sink_accepts kitchen_table "1700000000"
           "sensors/kitchen/power" (bytes_of "12") 0 "power.kitchen::host1"
           "power.kitchen" "host1"); try reflexivity. discriminate.
Defined.

(** X4.  A routed message whose payload is not well-formed UTF-8: the
    record "Sending ..." is written at info level all the same, nothing is
    sent, the [UnicodeDecodeError] is printed and raised again. *)
Theorem X4_undecodable_payload_announced_not_sent cfg send mapdict now tp b q raw k h :
  mapdict !! tp = Some raw ->
  str_split raw "::" = [k; h] ->
  valid_utf8 b = false ->
  on_message cfg send mapdict now (mkMessage tp (VBytes b) q) =
  ([received_record (mkMessage tp (VBytes b) q);
    Log DEBUG_LEVEL ("Processing : " +:+ tp) [];
    Log INFO_LEVEL "Sending %s %s to Zabbix to host %s key %s"
      [VStr tp; VBytes b; VStr (resolved_host cfg h); VStr k];
    PrintExn UnicodeDecodeError],
   Raise UnicodeDecodeError).
Proof.
  intros Hlook Hsplit Hvalid. rewrite on_message_unfold.
  rewrite (process_message_routed _ _ _ _ _ _ _ _ _ _ Hlook Hsplit), Hvalid.
  reflexivity.
Qed.

Lemma X4_undecodable_payload_announced_not_sent_witness :
  kitchen_table !! "sensors/kitchen/power" = Some "power.kitchen::host1"
  /\ str_split "power.kitchen::host1" "::" = ["power.kitchen"; "host1"]
  /\ valid_utf8 [xc3; x28] = false
  /\ sink_writes (effects (on_message example_cfg sink_accepts kitchen_table "1700000000"
                             (mkMessage "sensors/kitchen/power" (VBytes [xc3; x28]) 0))) = [].
Proof.
  split; [reflexivity|]. split; [reflexivity|]. split; [reflexivity|].
  rewrite (X4_undecodable_payload_announced_not_sent example_cfg sink_accepts kitchen_table
             "1700000000" "sensors/kitchen/power" [xc3; x28] 0 "power.kitchen::host1"
             "power.kitchen" "host1"); reflexivity.
Defined.

(** X5.  A payload made of ASCII bytes (every byte below 128), such as a
    number written in decimal, always decodes: on a routed topic whose value
    splits in two it is sent exactly once. *)
Theorem X5_ascii_payload_is_sent cfg send mapdict now tp b q raw k h :
  mapdict !! tp = Some raw ->
  str_split raw "::" = [k; h] ->
  Forall (fun x => byte_val x < 128) b ->
  sink_writes (effects (on_message cfg send mapdict now (mkMessage tp (VBytes b) q))) =
  [([mkMetric (resolved_host cfg h) k (String.string_of_list_byte b) now],
    ZBXSERVER cfg, ZBXPORT cfg)].
Proof.
  intros Hlook Hsplit Hascii.
  rewrite (routed_sink_writes _ _ _ _ _ _ _ _ _ _ Hlook Hsplit).
  rewrite (valid_utf8_ascii _ Hascii). reflexivity.
Qed.

Lemma X5_ascii_payload_is_sent_witness :
  hall_table !! "sensors/hall/light" = Some "light.hall::"
  /\ str_split "light.hall::" "::" = ["light.hall"; ""]
  /\ Forall (fun x => byte_val x < 128) (bytes_of "-3.5")
  /\ sink_writes (effects (on_message example_cfg sink_accepts hall_table "1700000000"
                             (mkMessage "sensors/hall/light" (VBytes (bytes_of "-3.5")) 2))) =
     [([mkMetric "monitor01" "light.hall" "-3.5" "1700000000"], "zabbix.example", 10051)].
Proof.
  assert (Hascii : Forall (fun x => byte_val x < 128) (bytes_of "-3.5"))
    by (repeat constructor).
  split; [reflexivity|]. split; [reflexivity|]. split; [exact Hascii|].
  apply (X5_ascii_payload_is_sent example_cfg sink_accepts hall_table "1700000000"
           "sensors/hall/light" (bytes_of "-3.5") 2 "light.hall::" "light.hall" "");
    [reflexivity | reflexivity | exact Hascii].
Defined.

(** What reaches the sink for a routed message whose value splits in two,
    for any payload object. *)
Lemma routed_sink_writes_any cfg send mapdict now msg raw k h :
  mapdict !! topic msg = Some raw ->
  str_split raw "::" = [k; h] ->
  sink_writes (effects (on_message cfg send mapdict now msg)) =
  match payload msg with
  | VBytes b =>
      if valid_utf8 b
      then [([mkMetric (resolved_host cfg h) k (String.string_of_list_byte b) now],
             ZBXSERVER cfg, ZBXPORT cfg)]
      else []
  | _ => []
  end.
Proof.
  intros Hlook Hsplit. rewrite on_message_sink_writes.
  rewrite (process_message_any _ _ _ _ _ _ _ _ Hlook Hsplit).
  cbn [effects fst]. rewrite sink_writes_app. cbn [sink_writes app].
  unfold normalised_payload.
  destruct (payload msg) as [b|s|n|o]; cbn [py_eq].
  - unfold decode_utf8, bytes_decode_utf8. destruct (valid_utf8 b); reflexivity.
  - destruct (bool_decide (s = "ON")); [reflexivity|].
    destruct (bool_decide (s = "OFF")); reflexivity.
  - reflexivity.
  - reflexivity.
Qed.

(** X6.  Whatever the message object, the table and the sink, [on_message]
    calls [send_to_zabbix] at most once, and a call it makes carries exactly
    one metric, built from a routed topic whose value splits in two and from
    a [bytes] payload that is well-formed UTF-8, passed as its value
    unchanged.  In particular no metric ever carries a value the script
    made up. *)
Theorem X6_sink_write_comes_from_payload cfg send mapdict now msg w :
  w ∈ sink_writes (effects (on_message cfg send mapdict now msg)) ->
  sink_writes (effects (on_message cfg send mapdict now msg)) = [w]
  /\ exists b raw k h,
       payload msg = VBytes b
       /\ valid_utf8 b = true
       /\ mapdict !! topic msg = Some raw
       /\ str_split raw "::" = [k; h]
       /\ w = ([mkMetric (resolved_host cfg h) k (String.string_of_list_byte b) now],
               ZBXSERVER cfg, ZBXPORT cfg).
Proof.
  intros Hin.
  destruct (mapdict !! topic msg) as [raw|] eqn:Hlook.
  - destruct (str_split raw "::") as [|k [|h [|x l]]] eqn:Hsplit.
    1,2,4: rewrite on_message_sink_writes in Hin;
      rewrite (process_message_bad_value cfg send mapdict now msg raw Hlook) in Hin;
      [apply elem_of_nil in Hin; contradiction | rewrite Hsplit; simpl; lia].
    rewrite (routed_sink_writes_any _ _ _ _ _ _ _ _ Hlook Hsplit) in Hin |- *.
    destruct (payload msg) as [b|s|n|o]; try (apply elem_of_nil in Hin; contradiction).
    destruct (valid_utf8 b) eqn:Hvalid; [|apply elem_of_nil in Hin; contradiction].
    apply list_elem_of_singleton in Hin. subst w.
    split; [reflexivity|]. exists b, raw, k, h. auto.
  - rewrite on_message_sink_writes in Hin.
    rewrite (process_message_miss _ _ _ _ _ Hlook) in Hin.
    apply elem_of_nil in Hin. contradiction.
Qed.

Lemma X6_sink_write_comes_from_payload_witness :
  exists b raw k h,
    VBytes (bytes_of "ON") = VBytes b
    /\ valid_utf8 b = true
    /\ kitchen_table !! "sensors/kitchen/power" = Some raw
    /\ str_split raw "::" = [k; h]
    /\ ([mkMetric "host1" "power.kitchen" "ON" "1700000000"], "zabbix.example", 10051) =
       ([mkMetric (resolved_host example_cfg h) k (String.string_of_list_byte b)
           "1700000000"],
        ZBXSERVER example_cfg, ZBXPORT example_cfg).
Proof.
  apply (X6_sink_write_comes_from_payload example_cfg sink_accepts kitchen_table
           "1700000000"
           (mkMessage "sensors/kitchen/power" (VBytes (bytes_of "ON")) 0)
           ([mkMetric "host1" "power.kitchen" "ON" "1700000000"], "zabbix.example", 10051)).
  vm_compute. apply list_elem_of_here.
Defined.

(** X7.  A payload that is the [str] ["ON"] or ["OFF"] (the only objects
    the two comparisons of [process_message] accept) is replaced by an
    [int], which has no [decode]: on a routed topic whose value splits in
    two, [on_message] raises [AttributeError] and nothing is sent. *)
Theorem X7_str_ON_OFF_raise_AttributeError cfg send mapdict now tp q raw k h s :
  mapdict !! tp = Some raw ->
  str_split raw "::" = [k; h] ->
  s = "ON" \/ s = "OFF" ->
  outcome (on_message cfg send mapdict now (mkMessage tp (VStr s) q)) = Raise AttributeError
  /\ sink_writes (effects (on_message cfg send mapdict now (mkMessage tp (VStr s) q))) = []
  /\ Log INFO_LEVEL "Sending %s %s to Zabbix to host %s key %s"
       [VStr tp; VInt (if bool_decide (s = "ON") then 1 else 0);
        VStr (resolved_host cfg h); VStr k]
     ∈ effects (on_message cfg send mapdict now (mkMessage tp (VStr s) q)).
Proof.
  intros Hlook Hsplit Hs.
  assert (Hl : mapdict !! topic (mkMessage tp (VStr s) q) = Some raw) by exact Hlook.
  split; [|split].
  - rewrite on_message_outcome, (process_message_any _ _ _ _ _ _ _ _ Hl Hsplit).
    destruct Hs as [-> | ->]; reflexivity.
  - rewrite (routed_sink_writes_any _ _ _ _ _ _ _ _ Hl Hsplit). reflexivity.
  - rewrite on_message_unfold, (process_message_any _ _ _ _ _ _ _ _ Hl Hsplit).
    cbn [effects fst]. apply list_elem_of_further.
    apply elem_of_app. left. apply elem_of_app. left.
    apply list_elem_of_further.
    destruct Hs as [-> | ->]; apply list_elem_of_here.
Qed.

Lemma X7_str_ON_OFF_raise_AttributeError_witness :
  kitchen_table !! "sensors/kitchen/power" = Some "power.kitchen::host1"
  /\ str_split "power.kitchen::host1" "::" = ["power.kitchen"; "host1"]
  /\ outcome (on_message example_cfg sink_accepts kitchen_table "1700000000"
                (mkMessage "sensors/kitchen/power" (VStr "ON") 0)) = Raise AttributeError.
Proof.
  split; [reflexivity|]. split; [reflexivity|].
  apply (X7_str_ON_OFF_raise_AttributeError example_cfg sink_accepts kitchen_table
           "1700000000" "sensors/kitchen/power" 0 "power.kitchen::host1"
           "power.kitchen" "host1" "ON"); [reflexivity | reflexivity | left; reflexivity].
Defined.

Lemma process_message_depends_on_sink_raising cfg send1 send2 mapdict now msg :
  (forall ms s p,
     match send1 ms s p, send2 ms s p with
     | Ok _, Ok _ => True
     | Raise e1, Raise e2 => e1 = e2
     | _, _ => False
     end) ->
  process_message cfg send1 mapdict now msg = process_message cfg send2 mapdict now msg.
Proof.
  intros Hsame.
  destruct (mapdict !! topic msg) as [raw|] eqn:Hlook.
  - destruct (str_split raw "::") as [|k [|h [|x l]]] eqn:Hsplit.
    1,2,4: rewrite !(process_message_bad_value _ _ mapdict now msg raw Hlook);
      try reflexivity; rewrite Hsplit; simpl; lia.
    rewrite !(process_message_any _ _ _ _ _ _ _ _ Hlook Hsplit).
    destruct (outcome (decode_utf8 (normalised_payload (payload msg)))) as [s|e];
      [|reflexivity].
    specialize (Hsame [mkMetric (resolved_host cfg h) k s now] (ZBXSERVER cfg) (ZBXPORT cfg)).
    destruct (send1 _ _ _), (send2 _ _ _); try contradiction; congruence.
  - rewrite !process_message_miss by exact Hlook. reflexivity.
Qed.

(** X8.  The value [send_to_zabbix] returns is not looked at: with a sink
    that never raises, be it one that returns [False] for every metric,
    [on_message] does and returns exactly what it does with a sink that
    accepts everything.  A refused metric leaves no record. *)
Theorem X8_sink_refusal_goes_unnoticed cfg send mapdict now msg :
  (forall ms s p, exists answer, send ms s p = Ok answer) ->
  on_message cfg send mapdict now msg = on_message cfg sink_accepts mapdict now msg.
Proof.
  intros Hreturns. rewrite !on_message_unfold.
  rewrite (process_message_depends_on_sink_raising cfg send sink_accepts); [reflexivity|].
  intros ms s p. destruct (Hreturns ms s p) as [answer ->]. exact I.
Qed.

Lemma X8_sink_refusal_goes_unnoticed_witness :
  (forall ms s p, exists answer, sink_rejects ms s p = Ok answer)
  /\ on_message example_cfg sink_rejects kitchen_table "1700000000"
       (mkMessage "sensors/kitchen/power" (VBytes (bytes_of "42")) 0) =
     ([Log DEBUG_LEVEL "Received: b'42' received on topic sensors/kitchen/power with QoS 0" [];
       Log DEBUG_LEVEL "Processing : sensors/kitchen/power" [];
       Log INFO_LEVEL "Sending %s %s to Zabbix to host %s key %s"
         [VStr "sensors/kitchen/power"; VBytes (bytes_of "42");
          VStr "host1"; VStr "power.kitchen"];
       Print ""; Print "<class 'str'>"; Print "";
       Send [mkMetric "host1" "power.kitchen" "42" "1700000000"] "zabbix.example" 10051],
      Ok tt).
Proof.
  assert (H : forall ms s p, exists answer, sink_rejects ms s p = Ok answer)
    by (intros; exists false; reflexivity).
  split; [exact H|].
  rewrite (X8_sink_refusal_goes_unnoticed example_cfg sink_rejects kitchen_table
             "1700000000"
             (mkMessage "sensors/kitchen/power" (VBytes (bytes_of "42")) 0) H).
  vm_compute. reflexivity.
Defined.

Lemma process_message_effects_kind cfg send mapdict now msg :
  Forall (fun e => is_message_effect e = true)
    (effects (process_message cfg send mapdict now msg)).
Proof.
  unfold process_message.
  apply Forall_bind; [apply Forall_emit; reflexivity | intros _].
  destruct (mapdict !! topic msg) as [raw|]; [|apply Forall_emit; reflexivity].
  apply Forall_bind; [rewrite effects_unpack2; constructor | intros [k h]].
  apply Forall_bind; [apply Forall_emit; reflexivity | intros _].
  apply Forall_bind; [rewrite effects_decode_utf8; constructor | intros payload_str].
  repeat (apply Forall_bind; [apply Forall_emit; reflexivity | intros _]).
  constructor.
Qed.

Lemma on_message_effects_kind cfg send mapdict now msg :
  Forall (fun e => is_message_effect e = true)
    (effects (on_message cfg send mapdict now msg)).
Proof.
  unfold on_message. apply Forall_try_except_Exception.
  - apply Forall_bind; [apply Forall_emit; reflexivity | intros _].
    apply process_message_effects_kind.
  - intros e. apply Forall_bind; [apply Forall_emit; reflexivity | intros _].
    constructor.
Qed.

(** X9.  Handling a message never touches the broker session and never
    waits: whatever the message, the table and the sink, the trace of
    [on_message] holds only debug and info records, prints and the call of
    the sink; no publish, no subscribe, no connect, no disconnect, no
    sleep, no record at warning level. *)
Theorem X9_on_message_effects cfg send mapdict now msg :
  forallb is_message_effect (effects (on_message cfg send mapdict now msg)) = true
  /\ existsb is_broker_call (effects (on_message cfg send mapdict now msg)) = false
  /\ existsb is_sleep (effects (on_message cfg send mapdict now msg)) = false
  /\ existsb is_warning_log (effects (on_message cfg send mapdict now msg)) = false.
Proof.
  pose proof (on_message_effects_kind cfg send mapdict now msg) as Hkind.
  induction Hkind as [|e t He _ IH]; [repeat split|].
  destruct IH as (IH1 & IH2 & IH3 & IH4).
  cbn [forallb existsb]. rewrite He, IH1, IH2, IH3, IH4.
  destruct e as [| [] | | | | | | | | | | | |]; try discriminate He; repeat split.
Qed.

(** ** The routing table, record by record *)

Lemma table_of_lookup (tp : string) (reader : list (list string)) :
  forall acc : gmap string string,
  table_of reader acc !! tp =
  match last (values_for tp reader) with
  | Some v => Some v
  | None => acc !! tp
  end.
Proof.
  induction reader as [|rows rest IH]; intros acc; [reflexivity|].
  change (table_of (rows :: rest) acc) with
    (table_of rest (match rows with r0 :: r1 :: _ => <[r0 := r1]> acc | _ => acc end)).
  rewrite IH. destruct rows as [|r0 [|r1 more]]; try reflexivity.
  cbn [values_for]. case_bool_decide as Heq.
  - subst r0. rewrite last_cons, lookup_insert_eq.
    destruct (last (values_for tp rest)); reflexivity.
  - rewrite lookup_insert_ne by exact Heq. reflexivity.
Qed.

Lemma values_for_nil_iff (tp : string) (reader : list (list string)) :
  Forall (fun rows => (2 <= length rows)%nat) reader ->
  values_for tp reader = [] <-> Forall (fun rows => head rows <> Some tp) reader.
Proof.
  induction 1 as [|rows rest Hrow _ IH]; [split; constructor|].
  destruct rows as [|r0 [|r1 more]]; simpl in Hrow; try lia.
  cbn [values_for]. case_bool_decide as Heq.
  - subst r0. split; [discriminate|].
    intros Hall. apply Forall_cons in Hall as [Hhead _]. contradiction Hhead. reflexivity.
  - rewrite IH. split.
    + intros Hrest. constructor; [|exact Hrest]. cbn. congruence.
    + intros Hall. apply Forall_cons in Hall as [_ Hrest]. exact Hrest.
Qed.

(** X10.  When every record of the key file has at least two fields the
    table is built, and looking a topic up in it gives the second field of
    the last record whose first field is that topic: later records
    override earlier ones, further fields are ignored, and a topic is
    routed exactly when some record starts with it. *)
Theorem X10_KeyMap_lookup (reader : list (list string)) :
  Forall (fun rows => (2 <= length rows)%nat) reader ->
  exists mapdict,
    KeyMap reader = ([Log DEBUG_LEVEL "Loading map" []], Ok mapdict)
    /\ (forall tp, mapdict !! tp = last (values_for tp reader))
    /\ (forall tp, mapdict !! tp = None <->
                   Forall (fun rows => head rows <> Some tp) reader).
Proof.
  intros Hall. exists (table_of reader ∅).
  assert (Hlook : forall tp, table_of reader ∅ !! tp = last (values_for tp reader)).
  { intros tp. rewrite table_of_lookup, lookup_empty.
    destruct (last (values_for tp reader)); reflexivity. }
  split; [apply KeyMap_total; exact Hall|]. split; [exact Hlook|].
  intros tp. rewrite Hlook, last_None. apply values_for_nil_iff. exact Hall.
Qed.

Lemma X10_KeyMap_lookup_witness :
  exists mapdict,
    KeyMap [["t/a"; "a.key::h1"; "note"]; ["t/b"; "b.key::"]; ["t/a"; "a.other::h2"]] =
      ([Log DEBUG_LEVEL "Loading map" []], Ok mapdict)
    /\ mapdict !! "t/a" = Some "a.other::h2"
    /\ mapdict !! "t/b" = Some "b.key::"
    /\ mapdict !! "t/c" = None.
Proof.
  destruct (X10_KeyMap_lookup
              [["t/a"; "a.key::h1"; "note"]; ["t/b"; "b.key::"]; ["t/a"; "a.other::h2"]])
    as (mapdict & Hmap & Hlook & _).
  - repeat constructor.
  - exists mapdict. split; [exact Hmap|].
    split; [|split]; rewrite Hlook; reflexivity.
Defined.

(** X11.  A record with fewer than two fields (an empty line of the key
    file gives one) stops the script while it loads the table: the
    [IndexError] ends the process with status 1 before a signal handler is
    set, a will registered or a connection attempted. *)
Theorem X11_short_record_stops_startup cfg fqdn send pid pre rows post answers events :
  Forall (fun rows => (2 <= length rows)%nat) pre ->
  (length rows < 2)%nat ->
  main cfg fqdn send pid (pre ++ rows :: post) answers events =
    ([NewClient "client_id";
      Log INFO_LEVEL "Starting mqtt-zabbix" [];
      Log INFO_LEVEL "INFO MODE" [];
      Log DEBUG_LEVEL "DEBUG MODE" [];
      Log DEBUG_LEVEL "Loading map" []],
     Raise IndexError)
  /\ exit_status
       (outcome (main cfg fqdn send pid (pre ++ rows :: post) answers events)) = Some 1.
Proof.
  intros Hpre Hshort.
  assert (Hload : outcome (KeyMap (pre ++ rows :: post)) = Raise IndexError)
    by (rewrite (KeyMap_short_record _ post _ Hpre Hshort); reflexivity).
  rewrite (main_load_error cfg fqdn send pid _ answers events _ Hload).
  split; reflexivity.
Qed.

Lemma X11_short_record_stops_startup_witness :
  Forall (fun rows => (2 <= length rows)%nat) [["t/a"; "a.key::h1"]]
  /\ (length (@nil string) < 2)%nat
  /\ exit_status
       (outcome (main example_cfg example_fqdn sink_accepts 4242
                   ([["t/a"; "a.key::h1"]] ++ [] :: [["t/b"; "b.key::"]]) []
                   [EvConnack 0])) = Some 1.
Proof.
  assert (Hpre : Forall (fun rows => (2 <= length rows)%nat) [["t/a"; "a.key::h1"]])
    by (repeat constructor).
  split; [exact Hpre|]. split; [simpl; lia|].
  apply (X11_short_record_stops_startup example_cfg example_fqdn sink_accepts 4242
           [["t/a"; "a.key::h1"]] [] [["t/b"; "b.key::"]] [] [EvConnack 0] Hpre).
  simpl. lia.
Defined.

(** X12.  From the key file to the sink: when every record has at least
    two fields and the last record of a topic reads [KEY::HOST] (key and
    host without separator, key not ending with a colon), a message on
    that topic with a well-formed UTF-8 payload is sent as one metric for
    [HOST], or for [KEYHOST] when [HOST] is empty, under [KEY]. *)
Theorem X12_key_file_to_sink cfg send reader mapdict now tp b q k h :
  Forall (fun rows => (2 <= length rows)%nat) reader ->
  last (values_for tp reader) = Some (k +:+ "::" +:+ h) ->
  occurs "::" (k +:+ ":") = false ->
  occurs "::" h = false ->
  valid_utf8 b = true ->
  outcome (KeyMap reader) = Ok mapdict ->
  sink_writes (effects (on_message cfg send mapdict now (mkMessage tp (VBytes b) q))) =
  [([mkMetric (resolved_host cfg h) k (String.string_of_list_byte b) now],
    ZBXSERVER cfg, ZBXPORT cfg)].
Proof.
  intros Hall Hlast Hk Hh Hvalid Hload.
  rewrite (KeyMap_total _ Hall) in Hload. injection Hload as <-.
  assert (Hlook : table_of reader ∅ !! tp = Some (k +:+ "::" +:+ h))
    by (rewrite table_of_lookup, Hlast; reflexivity).
  rewrite (routed_sink_writes _ _ _ _ _ _ _ _ _ _ Hlook (str_split_key_host _ _ Hk Hh)).
  rewrite Hvalid. reflexivity.
Qed.

Lemma X12_key_file_to_sink_witness :
  exists mapdict,
    outcome (KeyMap [["t/a"; "a.key::h1"]; ["t/b"; "b.key::"]; ["t/a"; "a.other::h2"]]) =
      Ok mapdict
    /\ sink_writes (effects (on_message example_cfg sink_accepts mapdict "1700000000"
                               (mkMessage "t/a" (VBytes (bytes_of "7")) 0))) =
       [([mkMetric "h2" "a.other" "7" "1700000000"], "zabbix.example", 10051)]
    /\ sink_writes (effects (on_message example_cfg sink_accepts mapdict "1700000000"
                               (mkMessage "t/b" (VBytes (bytes_of "8")) 0))) =
       [([mkMetric "monitor01" "b.key" "8" "1700000000"], "zabbix.example", 10051)].
Proof.
  assert (Hall : Forall (fun rows => (2 <= length rows)%nat)
                   [["t/a"; "a.key::h1"]; ["t/b"; "b.key::"]; ["t/a"; "a.other::h2"]])
    by (repeat constructor).
  eexists. split; [reflexivity|]. split.
  - apply (X12_key_file_to_sink example_cfg sink_accepts _ _ "1700000000" "t/a"
             (bytes_of "7") 0 "a.other" "h2" Hall); reflexivity.
  - apply (X12_key_file_to_sink example_cfg sink_accepts _ _ "1700000000" "t/b"
             (bytes_of "8") 0 "b.key" "" Hall); reflexivity.
Defined.

(** ** [connect()] and its retries *)

Lemma count_effects_app (f : effect -> bool) (t1 t2 : trace) :
  count_effects f (t1 ++ t2) = (count_effects f t1 + count_effects f t2)%nat.
Proof. unfold count_effects. rewrite List.filter_app, length_app. reflexivity. Qed.

Lemma slept_app (t1 t2 : trace) : slept (t1 ++ t2) = slept t1 + slept t2.
Proof.
  induction t1 as [|e t1 IH]; [reflexivity|].
  destruct e; cbn [app slept]; rewrite IH; lia.
Qed.

(** One run of the body of [connect()], case by case. *)
Lemma connect_body_unfold cfg fqdn (answer : result Z) (again : M unit) :
  connect_body cfg fqdn answer again =
  match answer with
  | Raise e => (connect_attempt cfg fqdn, Raise e)
  | Ok r =>
      if bool_decide (r <> 0) then
        match outcome again with
        | Ok _ =>
            (connect_attempt cfg fqdn ++
             [Log INFO_LEVEL "Connection failed with error code %s. Retrying" [VInt r];
              Sleep 10] ++ effects again ++ callbacks_trace cfg,
             Ok tt)
        | Raise e =>
            (connect_attempt cfg fqdn ++
             [Log INFO_LEVEL "Connection failed with error code %s. Retrying" [VInt r];
              Sleep 10] ++ effects again,
             Raise e)
        end
      else (connect_attempt cfg fqdn ++ callbacks_trace cfg, Ok tt)
  end.
Proof.
  unfold connect_body, connect_attempt, callbacks_trace.
  destruct answer as [r|e]; [|reflexivity].
  cbv beta iota zeta delta
    [mbind M_bind bind mret M_ret ret logging_debug logging_info emit].
  destruct (bool_decide (r <> 0)).
  - destruct again as [t [[]|e]]; cbn [outcome effects fst snd]; [|reflexivity].
    destruct (DEBUG cfg); cbn [app]; rewrite <- ?app_assoc; reflexivity.
  - destruct (DEBUG cfg); reflexivity.
Qed.

Lemma callbacks_trace_counts cfg :
  count_effects is_connect (callbacks_trace cfg) = 0%nat
  /\ count_effects is_will_set (callbacks_trace cfg) = 0%nat
  /\ slept (callbacks_trace cfg) = 0
  /\ count_effects is_set_callback (callbacks_trace cfg) =
     (if DEBUG cfg then 7 else 6)%nat.
Proof. unfold callbacks_trace. destruct (DEBUG cfg); repeat split. Qed.

(** The closed form of [connect()] when the first calls of
    [mqttc.connect] return the non-zero codes [codes] and the next one
    returns 0. *)
Lemma connect_after_failures cfg fqdn (codes : list Z) (more : list (result Z)) :
  Forall (fun r => r <> 0) codes ->
  outcome (connect cfg fqdn (map Ok codes ++ Ok 0 :: more)) = Ok tt
  /\ count_effects is_connect (effects (connect cfg fqdn (map Ok codes ++ Ok 0 :: more))) =
     S (length codes)
  /\ count_effects is_will_set (effects (connect cfg fqdn (map Ok codes ++ Ok 0 :: more))) =
     S (length codes)
  /\ slept (effects (connect cfg fqdn (map Ok codes ++ Ok 0 :: more))) =
     10 * Z.of_nat (length codes)
  /\ count_effects is_set_callback
       (effects (connect cfg fqdn (map Ok codes ++ Ok 0 :: more))) =
     (S (length codes) * (if DEBUG cfg then 7 else 6))%nat.
Proof.
  destruct (callbacks_trace_counts cfg) as (Hc1 & Hc2 & Hc3 & Hc4).
  induction 1 as [|r codes Hr _ IH].
  - cbn [map app connect]. rewrite connect_body_unfold.
    cbn [bool_decide decide_rel]. rewrite bool_decide_eq_false_2 by (intros H; apply H; reflexivity).
    cbn [effects outcome fst snd].
    rewrite !count_effects_app, slept_app, Hc1, Hc2, Hc3, Hc4.
    repeat split; cbn; lia.
  - destruct IH as (Ho & I1 & I2 & I3 & I4).
    cbn [map app connect]. rewrite connect_body_unfold.
    rewrite bool_decide_eq_true_2 by exact Hr. rewrite Ho.
    cbn [effects outcome fst snd].
    rewrite !count_effects_app, !slept_app, I1, I2, I3, I4, Hc1, Hc2, Hc3, Hc4.
    cbn [length]. repeat split; cbn; lia.
Qed.

(** X13.  When [mqttc.connect] returns a non-zero code [n] times and then
    0, [connect()] returns normally after [n + 1] attempts, each one
    preceded by its own registration of the will, and after sleeping 10
    seconds [n] times; as the recursive calls return one after the other,
    the callbacks are registered [n + 1] times over. *)
Theorem X13_connect_retries cfg fqdn (codes : list Z) (more : list (result Z)) :
  Forall (fun r => r <> 0) codes ->
  outcome (connect cfg fqdn (map Ok codes ++ Ok 0 :: more)) = Ok tt
  /\ count_effects is_connect (effects (connect cfg fqdn (map Ok codes ++ Ok 0 :: more))) =
     S (length codes)
  /\ count_effects is_will_set (effects (connect cfg fqdn (map Ok codes ++ Ok 0 :: more))) =
     S (length codes)
  /\ slept (effects (connect cfg fqdn (map Ok codes ++ Ok 0 :: more))) =
     10 * Z.of_nat (length codes)
  /\ count_effects is_set_callback
       (effects (connect cfg fqdn (map Ok codes ++ Ok 0 :: more))) =
     (S (length codes) * (if DEBUG cfg then 7 else 6))%nat
  /\ will_precedes_connect (effects (connect cfg fqdn (map Ok codes ++ Ok 0 :: more))) = true.
Proof.
  intros Hcodes.
  destruct (connect_after_failures cfg fqdn codes more Hcodes) as (H0 & H1 & H2 & H3 & H4).
  repeat (split; [assumption|]).
  destruct (connect_starts cfg fqdn (map Ok codes ++ Ok 0 :: more)) as [t ->]. reflexivity.
Qed.

Lemma X13_connect_retries_witness :
  Forall (fun r => r <> 0) [1; 7]
  /\ List.filter (fun e => is_connect e || is_will_set e || is_sleep e || is_set_callback e)
       (effects (connect example_cfg example_fqdn (map Ok [1; 7] ++ [Ok 0]))) =
     [WillSet "clients/bridge.example/mqtt-zabbix/state" "0" 0 true;
      Connect "localhost" 1883 60; Sleep 10;
      WillSet "clients/bridge.example/mqtt-zabbix/state" "0" 0 true;
      Connect "localhost" 1883 60; Sleep 10;
      WillSet "clients/bridge.example/mqtt-zabbix/state" "0" 0 true;
      Connect "localhost" 1883 60] ++
     callbacks_trace example_cfg ++ callbacks_trace example_cfg ++ callbacks_trace example_cfg
  /\ slept (effects (connect example_cfg example_fqdn (map Ok [1; 7] ++ [Ok 0]))) = 20.
Proof.
  assert (H : Forall (fun r => r <> 0) [1; 7]) by (repeat constructor; lia).
  split; [exact H|]. split; [vm_compute; reflexivity|].
  exact (proj1 (proj2 (proj2 (proj2
           (X13_connect_retries example_cfg example_fqdn [1; 7] [] H))))).
Defined.

Lemma connect_raising cfg fqdn (codes : list Z) (e : exn) (more : list (result Z)) :
  Forall (fun r => r <> 0) codes ->
  outcome (connect cfg fqdn (map Ok codes ++ Raise e :: more)) = Raise e
  /\ count_effects is_connect
       (effects (connect cfg fqdn (map Ok codes ++ Raise e :: more))) = S (length codes)
  /\ count_effects is_set_callback
       (effects (connect cfg fqdn (map Ok codes ++ Raise e :: more))) = 0%nat.
Proof.
  induction 1 as [|r codes Hr _ IH].
  - cbn [map app connect]. rewrite connect_body_unfold. repeat split.
  - destruct IH as (Ho & I1 & I2).
    cbn [map app connect]. rewrite connect_body_unfold.
    rewrite bool_decide_eq_true_2 by exact Hr. rewrite Ho.
    cbn [effects outcome fst snd].
    rewrite !count_effects_app, I1, I2. repeat split.
Qed.

Lemma startup_outcome cfg fqdn pid reader answers :
  outcome (startup cfg fqdn pid reader answers) =
  match outcome (KeyMap reader) with
  | Ok mapdict =>
      match outcome (connect cfg fqdn answers) with
      | Ok _ => Ok mapdict
      | Raise e => Raise e
      end
  | Raise e => Raise e
  end.
Proof.
  unfold startup. rewrite !outcome_bind.
  cbn [emit logging_info logging_debug outcome snd].
  destruct (outcome (KeyMap reader)); [|reflexivity].
  rewrite !outcome_bind. cbn [emit outcome snd].
  destruct (outcome (connect cfg fqdn answers)); reflexivity.
Qed.

Lemma main_startup_raises cfg fqdn send pid reader answers events e :
  outcome (startup cfg fqdn pid reader answers) = Raise e ->
  main cfg fqdn send pid reader answers events =
  (effects (startup cfg fqdn pid reader answers), Raise e).
Proof.
  intros Hraise. unfold main.
  rewrite (M_eta (startup cfg fqdn pid reader answers)), Hraise. reflexivity.
Qed.

(** X14.  When a call of [mqttc.connect] raises (the broker cannot be
    reached), after any number of calls that returned a non-zero code, the
    exception leaves [connect()] through every pending recursive call: no
    callback is registered, the script ends there with status 1 and no
    network event is ever handled. *)
Theorem X14_connect_exception_ends_script
    cfg fqdn send pid reader (codes : list Z) name more events :
  Forall (fun rows => (2 <= length rows)%nat) reader ->
  Forall (fun r => r <> 0) codes ->
  main cfg fqdn send pid reader (map Ok codes ++ Raise (LibraryError name) :: more) events =
    (effects (startup cfg fqdn pid reader
                (map Ok codes ++ Raise (LibraryError name) :: more)),
     Raise (LibraryError name))
  /\ exit_status
       (outcome (main cfg fqdn send pid reader
                   (map Ok codes ++ Raise (LibraryError name) :: more) events)) = Some 1
  /\ count_effects is_set_callback
       (effects (main cfg fqdn send pid reader
                   (map Ok codes ++ Raise (LibraryError name) :: more) events)) = 0%nat
  /\ count_effects is_connect
       (effects (main cfg fqdn send pid reader
                   (map Ok codes ++ Raise (LibraryError name) :: more) events)) =
     S (length codes).
Proof.
  intros Hall Hcodes.
  destruct (connect_raising cfg fqdn codes (LibraryError name) more Hcodes)
    as (Ho & Hc & Hs).
  assert (Hstart : outcome (startup cfg fqdn pid reader
                              (map Ok codes ++ Raise (LibraryError name) :: more)) =
                   Raise (LibraryError name)).
  { rewrite startup_outcome, (KeyMap_total _ Hall). cbn [outcome snd].
    rewrite Ho. reflexivity. }
  rewrite (main_startup_raises _ _ _ _ _ _ _ _ Hstart).
  cbn [effects outcome fst snd exit_status].
  rewrite startup_effects, (KeyMap_total _ Hall). cbn [outcome snd].
  rewrite !count_effects_app, Hc, Hs. repeat split.
Qed.

Lemma X14_connect_exception_ends_script_witness :
  Forall (fun rows => (2 <= length rows)%nat) [["t/a"; "a.key::h1"]]
  /\ Forall (fun r => r <> 0) [1]
  /\ outcome (main example_cfg example_fqdn sink_accepts 4242 [["t/a"; "a.key::h1"]]
                (map Ok [1] ++ [Raise (LibraryError "ConnectionRefusedError")])
                [EvConnack 0]) = Raise (LibraryError "ConnectionRefusedError")
  /\ exit_status
       (outcome (main example_cfg example_fqdn sink_accepts 4242 [["t/a"; "a.key::h1"]]
                (map Ok [1] ++ [Raise (LibraryError "ConnectionRefusedError")])
                [EvConnack 0])) = Some 1.
Proof.
  assert (Hall : Forall (fun rows => (2 <= length rows)%nat) [["t/a"; "a.key::h1"]])
    by (repeat constructor).
  assert (Hcodes : Forall (fun r => r <> 0) [1]) by (repeat constructor; lia).
  split; [exact Hall|]. split; [exact Hcodes|].
  split; [vm_compute; reflexivity|].
  exact (proj1 (proj2 (X14_connect_exception_ends_script example_cfg example_fqdn
                         sink_accepts 4242 [["t/a"; "a.key::h1"]] [1]
                         "ConnectionRefusedError" [] [EvConnack 0] Hall Hcodes))).
Defined.

(** ** The loop, event after event *)

Lemma message_effects_counts (t : trace) :
  Forall (fun e => is_message_effect e = true) t ->
  count_effects is_subscribe t = 0%nat
  /\ count_effects is_publish t = 0%nat
  /\ slept t = 0.
Proof.
  induction 1 as [|e t He _ (I1 & I2 & I3)]; [repeat split|].
  unfold count_effects in *.
  destruct e as [| [] | | | | | | | | | | | |]; try discriminate He;
    cbn [List.filter is_subscribe is_publish slept]; auto.
Qed.

(** What the callback of one event contributes when it returns. *)
Lemma handle_counts cfg fqdn send mapdict ph ev t ph' :
  handle cfg fqdn send mapdict ph ev = (t, Ok ph') ->
  count_effects is_subscribe t = (if accepted ev then 1 else 0)%nat
  /\ count_effects is_publish t = (if accepted ev then 1 else 0)%nat
  /\ slept t = sleep_of ev.
Proof.
  intros Hh. destruct ev as [rc|rc|msg now|mid|mid|mid|text|s].
  - destruct (Z.eq_dec rc 0) as [->|H0].
    { injection Hh as <- _. repeat split. }
    destruct (Z.eq_dec rc 3) as [->|H3].
    { injection Hh as <- _. repeat split. }
    rewrite (handle_fatal_refusal _ _ _ _ _ _ H0 H3) in Hh. discriminate Hh.
  - unfold handle, on_disconnect in Hh. cbn [accepted sleep_of].
    destruct (rc =? 0); injection Hh as <- _; repeat split.
  - unfold handle in Hh.
    pose proof (on_message_effects_kind cfg send mapdict now msg) as Hkind.
    destruct (on_message cfg send mapdict now msg) as [tm [[]|e]];
      [|discriminate Hh].
    injection Hh as <- _. cbn [effects fst] in Hkind. rewrite app_nil_r.
    exact (message_effects_counts _ Hkind).
  - injection Hh as <- _. repeat split.
  - injection Hh as <- _. repeat split.
  - injection Hh as <- _. repeat split.
  - unfold handle in Hh. destruct (DEBUG cfg); injection Hh as <- _; repeat split.
  - rewrite handle_signal in Hh. discriminate Hh.
Qed.

Lemma loop_forever_counts cfg fqdn send mapdict events :
  forall ph t ph',
  loop_forever cfg fqdn send mapdict ph events = (t, Ok ph') ->
  ph' <> Disconnected ->
  count_effects is_subscribe t = length (List.filter accepted events)
  /\ count_effects is_publish t = length (List.filter accepted events)
  /\ slept t = waits events.
Proof.
  induction events as [|ev rest IH]; intros ph t ph' Hrun Hph.
  - injection Hrun as <- _. repeat split.
  - rewrite loop_forever_cons in Hrun.
    destruct (handle cfg fqdn send mapdict ph ev) as [t1 [ph1|e]] eqn:Hh;
      [|discriminate Hrun].
    rewrite bind_Ok in Hrun.
    destruct (handle_counts _ _ _ _ _ _ _ _ Hh) as (H1 & H2 & H3).
    destruct ph1;
      try (destruct (loop_forever cfg fqdn send mapdict _ rest) as [t2 r2] eqn:Hl;
           cbn [effects outcome fst snd] in Hrun; injection Hrun as <- ->;
           destruct (IH _ _ _ Hl Hph) as (I1 & I2 & I3);
           rewrite !count_effects_app, slept_app, H1, H2, H3, I1, I2, I3;
           cbn [List.filter waits]; destruct (accepted ev); repeat split).
    cbn in Hrun. injection Hrun as _ <-. contradiction.
Qed.

(** X15.  An unexpected disconnection does not stop the script: for a
    disconnection with a non-zero code followed by an accepted connection,
    [on_disconnect] writes its two records and sleeps 5 seconds, the
    library reconnects, and [on_connect] publishes the online marker again
    and subscribes again; the loop then goes on, connected, with the same
    routing table. *)
Theorem X15_reconnection_restores_session cfg fqdn send mapdict ph (rc : Z) rest :
  rc <> 0 ->
  loop_forever cfg fqdn send mapdict ph (EvDisconnected rc :: EvConnack 0 :: rest) =
  ([Log INFO_LEVEL "Unexpected disconnection! Reconnecting in 5 seconds" [];
    Log DEBUG_LEVEL "Result code: %s" [VInt rc];
    Sleep 5;
    Reconnect;
    Log DEBUG_LEVEL "on_connect RC: 0" [];
    Log INFO_LEVEL "Connected to %s:%s" [VStr (MQTT_HOST cfg); VInt (MQTT_PORT cfg)];
    Publish (PRESENCETOPIC fqdn) "1" true;
    Log DEBUG_LEVEL "Processing connection" [];
    Subscribe (MQTT_TOPIC cfg) 2] ++
   effects (loop_forever cfg fqdn send mapdict Connected rest),
   outcome (loop_forever cfg fqdn send mapdict Connected rest)).
Proof.
  intros Hrc.
  assert (Hd : handle cfg fqdn send mapdict ph (EvDisconnected rc) =
               ([Log INFO_LEVEL "Unexpected disconnection! Reconnecting in 5 seconds" [];
                 Log DEBUG_LEVEL "Result code: %s" [VInt rc];
                 Sleep 5; Reconnect], Ok Connecting)).
  { unfold handle, on_disconnect. apply Z.eqb_neq in Hrc. rewrite Hrc. reflexivity. }
  rewrite (loop_forever_step _ _ _ _ _ _ _ _ _ Hd) by discriminate.
  rewrite (loop_forever_step cfg fqdn send mapdict Connecting (EvConnack 0) rest
             _ Connected eq_refl) by discriminate.
  cbn [effects outcome fst snd]. rewrite app_assoc. reflexivity.
Qed.

Lemma X15_reconnection_restores_session_witness :
  7 <> 0
  /\ List.filter is_broker_call
       (effects (loop_forever example_cfg example_fqdn sink_accepts kitchen_table Connected
                   [EvDisconnected 7; EvConnack 0;
                    EvMessage (mkMessage "sensors/kitchen/power" (VBytes (bytes_of "5")) 0)
                      "1700000000"])) =
     [Publish "clients/bridge.example/mqtt-zabbix/state" "1" true; Subscribe "/raw/#" 2]
  /\ sink_writes
       (effects (loop_forever example_cfg example_fqdn sink_accepts kitchen_table Connected
                   [EvDisconnected 7; EvConnack 0;
                    EvMessage (mkMessage "sensors/kitchen/power" (VBytes (bytes_of "5")) 0)
                      "1700000000"])) =
     [([mkMetric "host1" "power.kitchen" "5" "1700000000"], "zabbix.example", 10051)].
Proof.
  split; [lia|].
  rewrite (X15_reconnection_restores_session example_cfg example_fqdn sink_accepts
             kitchen_table Connected 7
             [EvMessage (mkMessage "sensors/kitchen/power" (VBytes (bytes_of "5")) 0)
                "1700000000"]) by lia.
  split; vm_compute; reflexivity.
Defined.

(** X16.  In a run of the loop in which every event was handled and the
    loop is still going, the online marker was published and the topic
    subscribed once for each accepted connection, no more and no less:
    nothing else publishes or subscribes. *)
Theorem X16_one_marker_and_subscription_per_acceptance
    cfg fqdn send mapdict ph events t ph' :
  loop_forever cfg fqdn send mapdict ph events = (t, Ok ph') ->
  ph' <> Disconnected ->
  count_effects is_subscribe t = length (List.filter accepted events)
  /\ count_effects is_publish t = length (List.filter accepted events).
Proof.
  intros Hrun Hph.
  destruct (loop_forever_counts _ _ _ _ _ _ _ _ Hrun Hph) as (H1 & H2 & _). auto.
Qed.

Lemma X16_one_marker_and_subscription_per_acceptance_witness :
  outcome (loop_forever example_cfg example_fqdn sink_accepts kitchen_table Connecting
             [EvConnack 3; EvConnack 0; EvSubscribed 1; EvDisconnected 1; EvConnack 0]) =
    Ok Connected
  /\ Connected <> Disconnected
  /\ count_effects is_subscribe
       (effects (loop_forever example_cfg example_fqdn sink_accepts kitchen_table Connecting
             [EvConnack 3; EvConnack 0; EvSubscribed 1; EvDisconnected 1; EvConnack 0])) =
     2%nat.
Proof.
  split; [vm_compute; reflexivity|]. split; [discriminate|].
  apply (X16_one_marker_and_subscription_per_acceptance example_cfg example_fqdn
           sink_accepts kitchen_table Connecting
           [EvConnack 3; EvConnack 0; EvSubscribed 1; EvDisconnected 1; EvConnack 0]
           _ Connected); [vm_compute; reflexivity | discriminate].
Defined.

(** X17.  In such a run the loop was blocked in [time.sleep] for 30
    seconds per refusal with code 3 and 5 seconds per unexpected
    disconnection, and for nothing else: handling messages and
    acknowledgements never sleeps. *)
Theorem X17_time_slept_by_the_loop cfg fqdn send mapdict ph events t ph' :
  loop_forever cfg fqdn send mapdict ph events = (t, Ok ph') ->
  ph' <> Disconnected ->
  slept t = waits events.
Proof.
  intros Hrun Hph.
  destruct (loop_forever_counts _ _ _ _ _ _ _ _ Hrun Hph) as (_ & _ & H3). exact H3.
Qed.

Lemma X17_time_slept_by_the_loop_witness :
  outcome (loop_forever example_cfg example_fqdn sink_accepts kitchen_table Connecting
             [EvConnack 3; EvConnack 3; EvConnack 0; EvDisconnected 1; EvConnack 0]) =
    Ok Connected
  /\ Connected <> Disconnected
  /\ slept
       (effects (loop_forever example_cfg example_fqdn sink_accepts kitchen_table Connecting
             [EvConnack 3; EvConnack 3; EvConnack 0; EvDisconnected 1; EvConnack 0])) = 65.
Proof.
  split; [vm_compute; reflexivity|]. split; [discriminate|].
  apply (X17_time_slept_by_the_loop example_cfg example_fqdn sink_accepts kitchen_table
           Connecting
           [EvConnack 3; EvConnack 3; EvConnack 0; EvDisconnected 1; EvConnack 0]
           _ Connected); [vm_compute; reflexivity | discriminate].
Defined.

Lemma message_effects_no_broker_call (t : trace) :
  Forall (fun e => is_message_effect e = true) t ->
  existsb is_broker_call t = false.
Proof.
  induction 1 as [|e t He _ IH]; [reflexivity|].
  cbn [existsb]. rewrite IH.
  destruct e as [| [] | | | | | | | | | | | |]; try discriminate He; reflexivity.
Qed.

(** X18.  An exception that leaves [on_message] leaves the loop as well:
    the process ends with that message, the events that follow are not
    handled, and the script calls the broker no more, in particular it
    neither publishes the offline marker nor disconnects. *)
Theorem X18_exception_in_on_message_ends_loop cfg fqdn send mapdict ph msg now rest e :
  outcome (on_message cfg send mapdict now msg) = Raise e ->
  loop_forever cfg fqdn send mapdict ph (EvMessage msg now :: rest) =
    (effects (on_message cfg send mapdict now msg), Raise e)
  /\ session_phase
       (outcome (loop_forever cfg fqdn send mapdict ph (EvMessage msg now :: rest))) =
     Terminated
  /\ existsb is_broker_call
       (effects (loop_forever cfg fqdn send mapdict ph (EvMessage msg now :: rest))) = false.
Proof.
  intros Hraise.
  assert (Hh : handle cfg fqdn send mapdict ph (EvMessage msg now) =
               (effects (on_message cfg send mapdict now msg), Raise e)).
  { unfold handle. rewrite (M_eta (on_message cfg send mapdict now msg)), Hraise.
    reflexivity. }
  rewrite (loop_forever_raise _ _ _ _ _ _ rest _ _ Hh).
  split; [reflexivity|]. split; [reflexivity|].
  cbn [effects fst]. apply message_effects_no_broker_call, on_message_effects_kind.
Qed.

Lemma X18_exception_in_on_message_ends_loop_witness :
  outcome (on_message example_cfg sink_accepts kitchen_table "1700000000"
             (mkMessage "sensors/kitchen/power" (VBytes [xff]) 0)) =
    Raise UnicodeDecodeError
  /\ outcome (loop_forever example_cfg example_fqdn sink_accepts kitchen_table Connected
                [EvMessage (mkMessage "sensors/kitchen/power" (VBytes [xff]) 0) "1700000000";
                 EvMessage (mkMessage "sensors/kitchen/power" (VBytes (bytes_of "1")) 0)
                   "1700000001"]) = Raise UnicodeDecodeError
  /\ sink_writes
       (effects (loop_forever example_cfg example_fqdn sink_accepts kitchen_table Connected
                [EvMessage (mkMessage "sensors/kitchen/power" (VBytes [xff]) 0) "1700000000";
                 EvMessage (mkMessage "sensors/kitchen/power" (VBytes (bytes_of "1")) 0)
                   "1700000001"])) = [].
Proof.
  assert (H : outcome (on_message example_cfg sink_accepts kitchen_table "1700000000"
                         (mkMessage "sensors/kitchen/power" (VBytes [xff]) 0)) =
              Raise UnicodeDecodeError) by (vm_compute; reflexivity).
  split; [exact H|].
  rewrite (proj1 (X18_exception_in_on_message_ends_loop example_cfg example_fqdn
                    sink_accepts kitchen_table Connected
                    (mkMessage "sensors/kitchen/power" (VBytes [xff]) 0) "1700000000"
                    [EvMessage (mkMessage "sensors/kitchen/power" (VBytes (bytes_of "1")) 0)
                       "1700000001"]
                    UnicodeDecodeError H)).
  split; vm_compute; reflexivity.
Defined.

(** X19.  The [except KeyboardInterrupt] of the last lines: when a
    [KeyboardInterrupt] leaves [loop_forever], the script writes
    "Interrupted by keypress" and exits with status 0, without publishing
    the offline marker and without disconnecting. *)
Theorem X19_keyboard_interrupt_exits_zero
    cfg fqdn send pid reader answers pre rest t0 ph mapdict t :
  main cfg fqdn send pid reader answers pre = (t0, Ok ph) ->
  ph <> Disconnected ->
  outcome (KeyMap reader) = Ok mapdict ->
  loop_forever cfg fqdn send mapdict ph rest = (t, Raise KeyboardInterrupt) ->
  main cfg fqdn send pid reader answers (pre ++ rest) =
    (t0 ++ t ++ [Log INFO_LEVEL "Interrupted by keypress" []], Raise (SystemExit 0))
  /\ exit_status (outcome (main cfg fqdn send pid reader answers (pre ++ rest))) = Some 0.
Proof.
  intros Hrun Hph Hload Hloop.
  assert (Hmain : main cfg fqdn send pid reader answers (pre ++ rest) =
                  (t0 ++ t ++ [Log INFO_LEVEL "Interrupted by keypress" []],
                   Raise (SystemExit 0))).
  { unfold main in *.
    pose proof (startup_outcome cfg fqdn pid reader answers) as Hso.
    rewrite Hload in Hso.
    destruct (startup cfg fqdn pid reader answers) as [ts [d|e0]];
      [|rewrite bind_Raise in Hrun; discriminate Hrun].
    cbn [outcome snd] in Hso.
    destruct (outcome (connect cfg fqdn answers)); [|discriminate Hso].
    injection Hso as ->.
    rewrite bind_Ok in Hrun. rewrite bind_Ok.
    destruct (loop_forever cfg fqdn send mapdict Connecting pre) as [tl [phl|el]] eqn:Hpre.
    - cbn in Hrun. injection Hrun as <- ->.
      rewrite (loop_forever_app _ _ _ _ _ _ _ _ _ Hpre Hph), Hloop.
      cbn [effects outcome fst snd try_except_KeyboardInterrupt].
      cbv beta iota zeta delta [mbind M_bind bind logging_info emit sys_exit raise].
      cbn [effects outcome fst snd app]. rewrite <- !app_assoc. reflexivity.
    - destruct el; cbn in Hrun; discriminate Hrun. }
  rewrite Hmain. split; reflexivity.
Qed.

Lemma X19_keyboard_interrupt_exits_zero_witness :
  main example_cfg example_fqdn sink_interrupted 4242
    [["sensors/kitchen/power"; "power.kitchen::host1"]] [] [EvConnack 0] =
    (effects (main example_cfg example_fqdn sink_interrupted 4242
                [["sensors/kitchen/power"; "power.kitchen::host1"]] [] [EvConnack 0]),
     Ok Connected)
  /\ exit_status
       (outcome (main example_cfg example_fqdn sink_interrupted 4242
                   [["sensors/kitchen/power"; "power.kitchen::host1"]] []
                   ([EvConnack 0] ++
                    [EvMessage (mkMessage "sensors/kitchen/power" (VBytes (bytes_of "1")) 0)
                       "1700000000"]))) = Some 0.
Proof.
  assert (Hrun : main example_cfg example_fqdn sink_interrupted 4242
            [["sensors/kitchen/power"; "power.kitchen::host1"]] [] [EvConnack 0] =
          (effects (main example_cfg example_fqdn sink_interrupted 4242
                      [["sensors/kitchen/power"; "power.kitchen::host1"]] [] [EvConnack 0]),
           Ok Connected)) by (vm_compute; reflexivity).
  split; [exact Hrun|].
  refine (proj2 (X19_keyboard_interrupt_exits_zero example_cfg example_fqdn
                   sink_interrupted 4242
                   [["sensors/kitchen/power"; "power.kitchen::host1"]] [] [EvConnack 0]
                   [EvMessage (mkMessage "sensors/kitchen/power" (VBytes (bytes_of "1")) 0)
                      "1700000000"]
                   _ Connected kitchen_table
                   (effects (loop_forever example_cfg example_fqdn sink_interrupted
                               kitchen_table Connected
                               [EvMessage (mkMessage "sensors/kitchen/power"
                                             (VBytes (bytes_of "1")) 0) "1700000000"]))
                   Hrun _ _ _)).
  - discriminate.
  - reflexivity.
  - vm_compute. reflexivity.
Defined.

(** X20.  In every run of the script, whatever the key file, the answers
    of the broker and the events: every subscription is to the configured
    topic at QoS 2; every connection is to the configured broker with a
    keep-alive of 60; every sleep lasts 30, 5 or 10 seconds; every call of
    the sink carries one metric and goes to the configured server and
    port; signal handlers are set for signals 15 and 2 only. *)
Theorem X20_calls_follow_the_configuration cfg fqdn send pid reader answers events :
  (forall tp q,
     Subscribe tp q ∈ effects (main cfg fqdn send pid reader answers events) ->
     tp = MQTT_TOPIC cfg /\ q = 2)
  /\ (forall h p k,
        Connect h p k ∈ effects (main cfg fqdn send pid reader answers events) ->
        h = MQTT_HOST cfg /\ p = MQTT_PORT cfg /\ k = 60)
  /\ (forall n,
        Sleep n ∈ effects (main cfg fqdn send pid reader answers events) ->
        n = 30 \/ n = 5 \/ n = 10)
  /\ (forall ms s p,
        Send ms s p ∈ effects (main cfg fqdn send pid reader answers events) ->
        s = ZBXSERVER cfg /\ p = ZBXPORT cfg /\ length ms = 1%nat)
  /\ (forall n,
        SetSignal n ∈ effects (main cfg fqdn send pid reader answers events) ->
        n = 15 \/ n = 2).
Proof.
  pose proof (main_ok cfg fqdn send pid reader answers events) as Hok.
  rewrite Forall_forall in Hok.
  repeat split; intros; match goal with H : _ ∈ _ |- _ => apply Hok in H end;
    cbn [script_effect] in *; intuition.
Qed.

Lemma X20_calls_follow_the_configuration_witness :
  List.filter (fun e => is_subscribe e || is_sleep e || is_set_signal e)
    (effects (main example_cfg example_fqdn sink_accepts 4242 [] [Ok 5]
                [EvConnack 3; EvConnack 0; EvDisconnected 1])) =
    [SetSignal 15; SetSignal 2; Sleep 10; Sleep 30; Subscribe "/raw/#" 2; Sleep 5]
  /\ (forall n,
        Sleep n ∈ effects (main example_cfg example_fqdn sink_accepts 4242 [] [Ok 5]
                             [EvConnack 3; EvConnack 0; EvDisconnected 1]) ->
        n = 30 \/ n = 5 \/ n = 10).
Proof.
  split; [vm_compute; reflexivity|].
  exact (proj1 (proj2 (proj2 (X20_calls_follow_the_configuration example_cfg example_fqdn
                                sink_accepts 4242 [] [Ok 5]
                                [EvConnack 3; EvConnack 0; EvDisconnected 1])))).
Defined.
